(** * pgs-bot: the order form, the intent recogniser and the main flow

    A shallow embedding of [dialogs/orderRecognizer.js],
    [dialogs/orderDialog.js] and [dialogs/mainDialog.js].

    The dialogs are waterfall dialogs of the Bot Framework: every step is a
    function of its step context that may send activities and then hands
    control back with one of [prompt], [next], [beginDialog], [endDialog]
    or [replaceDialog].  Steps are embedded as pure functions returning the
    activities they sent, the (mutated) options object and the hand-back;
    the framework's waterfall loop is [runSteps].

    Left out: the cancel/help interruption that [OrderDialog] inherits from
    [CancelAndHelpDialog], and [MainDialog.run], which only starts the main
    waterfall when no dialog is active. *)

From stdpp Require Import gmap strings list fin_maps pretty.
From Stdlib Require Import Ascii.

#[local] Set Warnings "-register-all,-clear-no-such-hyp".

(** ** JavaScript values *)

(** The values that travel through the dialogs: prompt results, the fields
    of the order record, and the record itself (a plain object, i.e. a
    finite map from property names to values). *)
Inductive value : Type :=
  | VUndefined
  | VNull
  | VBool (b : bool)
  | VStr (s : string)
  | VObj (o : gmap string value).

Abbreviation obj := (gmap string value).

(** [!v] is [negb (truthy v)]. *)
Definition truthy (v : value) : bool :=
  match v with
  | VUndefined | VNull => false
  | VBool b => b
  | VStr s => negb (String.eqb s "")
  | VObj _ => true
  end.

(** [o.k] on an object: a missing property reads as [undefined]. *)
Definition getProp (o : obj) (k : string) : value :=
  default VUndefined (o !! k).

(** [v.k] on a value that is neither [undefined] nor [null] (the only use
    in the sources is guarded by a truthiness test); primitives have none
    of the properties the dialogs read. *)
Definition prop (v : value) (k : string) : value :=
  match v with
  | VObj o => getProp o k
  | _ => VUndefined
  end.

(** [v === true] *)
Definition isTrue (v : value) : bool :=
  match v with
  | VBool true => true
  | _ => false
  end.

(** String conversion, as performed by template literals. *)
Definition toString (v : value) : string :=
  match v with
  | VUndefined => "undefined"
  | VNull => "null"
  | VBool true => "true"
  | VBool false => "false"
  | VStr s => s
  | VObj _ => "[object Object]"
  end.

(** [Array.prototype.join]: [undefined] and [null] elements print as the
    empty string. *)
Fixpoint join (sep : string) (l : list value) : string :=
  match l with
  | [] => ""
  | [v] => match v with VUndefined | VNull => "" | _ => toString v end
  | v :: rest =>
      (match v with VUndefined | VNull => "" | _ => toString v end)
        +:+ sep +:+ join sep rest
  end.

(** [s.split(c)[0]]: the part of [s] before the first [c]. *)
Fixpoint before (c : ascii) (s : string) : string :=
  match s with
  | EmptyString => EmptyString
  | String a s' => if Ascii.eqb a c then EmptyString else String a (before c s')
  end.

Fixpoint contains (c : ascii) (s : string) : bool :=
  match s with
  | EmptyString => false
  | String a s' => Ascii.eqb a c || contains c s'
  end.

Definition dquote : string := String "034"%char EmptyString.
Definition newline : string := String "010"%char EmptyString.

(** ** Exceptions *)

Inductive JsError : Type :=
  | Error (message : string)
  | TypeError.

Inductive exn (A : Type) : Type :=
  | Ok (a : A)
  | Throw (e : JsError).
Arguments Ok {A} a.
Arguments Throw {A} e.

#[global] Instance exn_ret : MRet exn := λ A a, Ok a.

#[global] Instance exn_bind : MBind exn := λ A B f m,
  match m with
  | Ok a => f a
  | Throw e => Throw e
  end.

(** ** The Bot Framework interface *)

Inductive InputHints : Type := AcceptingInput | ExpectingInput | IgnoringInput.

(** An outgoing message: [MessageFactory.text(text, speak, inputHint)] and
    the arguments of [sendActivity(text, speak, inputHint)]. *)
Record Activity : Type := mkActivity {
  text : string;
  speak : option string;
  inputHint : InputHints
}.

(** The incoming activity of the current turn. *)
Record TurnContext : Type := mkTurnContext {
  activityText : string
}.

(** How a waterfall step hands control back. *)
Inductive DialogTurnResult : Type :=
  | Prompt (dialogId : string) (prompt : Activity)
  | Next (result : value)
  | BeginDialog (dialogId : string) (options : obj)
  | EndDialog (result : value)
  | ReplaceDialog (dialogId : string) (options : obj).

(** What a run of a dialog does that is visible outside of it. *)
Inductive event : Type :=
  | Sent (a : Activity)
  | LuisQuery (context : TurnContext)
  | Requested (r : DialogTurnResult).

Record WaterfallStepContext : Type := mkStepContext {
  context : TurnContext;
  options : obj;
  result : value
}.

(** The outcome of a step: the options object as the step leaves it (steps
    write to [stepContext.options], which the next step reads), what it
    sent, and the hand-back. *)
Record StepOutput : Type := mkStepOutput {
  optionsAfter : obj;
  events : list event;
  action : DialogTurnResult
}.

Definition WaterfallStep : Type := WaterfallStepContext → exn StepOutput.

Inductive outcome : Type :=
  | Waiting (stepIndex : nat) (options : obj) (request : DialogTurnResult)
  | Ended (result : value)
  | Replaced (dialogId : string) (options : obj)
  | Failed (e : JsError).

Definition prepend (evs : list event) (r : list event * outcome)
  : list event * outcome :=
  (evs ++ r.1, r.2).

(** The waterfall loop.  [steps] are the steps still to run, the first of
    them having index [index].  [next] runs the following step at once;
    a prompt or a child dialog is answered by [respond] with the context of
    the turn in which the answer arrived and the answer itself, or not yet
    ([None]), in which case the waterfall waits at that step.  Running off
    the end of the waterfall ends it with the last result. *)
Fixpoint runSteps (respond : DialogTurnResult → option (TurnContext * value))
    (steps : list WaterfallStep) (index : nat)
    (ctx : TurnContext) (opts : obj) (res : value) : list event * outcome :=
  match steps with
  | [] => ([], Ended res)
  | step :: rest =>
      match step (mkStepContext ctx opts res) with
      | Throw e => ([], Failed e)
      | Ok out =>
          match action out with
          | Next v =>
              prepend (events out)
                (runSteps respond rest (S index) ctx (optionsAfter out) v)
          | EndDialog r => (events out, Ended r)
          | ReplaceDialog id o => (events out, Replaced id o)
          | req =>
              match respond req with
              | None =>
                  (events out ++ [Requested req],
                   Waiting index (optionsAfter out) req)
              | Some (ctx', v) =>
                  prepend (events out ++ [Requested req])
                    (runSteps respond rest (S index) ctx' (optionsAfter out) v)
              end
          end
      end
  end.

(** [beginDialog]: the waterfall starts at its first step, with no result. *)
Definition beginWaterfall respond (steps : list WaterfallStep)
    (ctx : TurnContext) (opts : obj) : list event * outcome :=
  runSteps respond steps 0 ctx opts VUndefined.

(** [continueDialog]/[resumeDialog]: a waterfall waiting at [index] is given
    the answer and goes on with the step after it. *)
Definition resumeWaterfall respond (steps : list WaterfallStep) (index : nat)
    (ctx : TurnContext) (opts : obj) (res : value) : list event * outcome :=
  runSteps respond (drop (S index) steps) (S index) ctx opts res.

(** [DialogSet.add] of botbuilder-dialogs, as far as ids go: a dialog
    whose id is taken is added under that id with the first suffix 2, 3,
    ... that is free. *)
Fixpoint freeSuffix (dialogs : list string) (id : string) (fuel suffix : nat)
  : string :=
  match fuel with
  | 0 => id +:+ pretty suffix
  | S fuel' =>
      if bool_decide (id +:+ pretty suffix ∈ dialogs)
      then freeSuffix dialogs id fuel' (S suffix)
      else id +:+ pretty suffix
  end.

Definition addDialog (dialogs : list string) (id : string) : list string :=
  dialogs
  ++ [if bool_decide (id ∈ dialogs)
      then freeSuffix dialogs id (length dialogs) 2
      else id].

(** Nobody answers: the run stops at the first prompt or child dialog. *)
Definition unanswered : DialogTurnResult → option (TurnContext * value) :=
  fun _ => None.

(** ** Third-party collaborators *)

(** The shape of a LUIS result as the accessors of [OrderRecognizer] read
    it: [result.entities] and [result.entities.$instance] are read
    unguarded, everything below them is optional. *)
Record InstanceData : Type := mkInstanceData {
  instanceText : string                       (* [$instance.Deliver[i].text] *)
}.

Record DeliverEntity : Type := mkDeliverEntity {
  ItemList : option (list (list string))      (* [Deliver[i].ItemList] *)
}.

Record DateTimeSpec : Type := mkDateTimeSpec {
  timex : option (list string)                (* [datetime[i].timex] *)
}.

Record Entities : Type := mkEntities {
  instanceDeliver : option (list InstanceData);   (* [$instance.Deliver] *)
  Deliver : option (list DeliverEntity);
  datetime : option (list DateTimeSpec)
}.

Record RecognizerResult : Type := mkRecognizerResult {
  utterance : string;
  entities : Entities
}.

(** The configuration handed to [OrderRecognizer]: the three settings
    ([LuisAppId], [LuisAPIKey], [LuisAPIHostName]) that decide whether LUIS
    is configured.  Each may be missing or empty. *)
Record LuisApplication : Type := mkLuisApplication {
  applicationId : value;
  endpointKey : value;
  endpoint : value
}.

Record RecognizerOptions : Type := mkRecognizerOptions {
  apiVersion : string
}.

(** [LuisRecognizer] of botbuilder-ai: its constructor, the query it sends
    to the service, and its static [topIntent].  The query is a call to a
    service; it gives a result or is rejected with an error. *)
Class Luis : Type := {
  LuisRecognizer : Type;
  newLuisRecognizer : LuisApplication → RecognizerOptions → LuisRecognizer;
  recognize : LuisRecognizer → TurnContext → exn RecognizerResult;
  topIntent : RecognizerResult → string
}.

(** Modelled from the spec: a parsed TIMEX expression, reduced to the
    fields that decide whether it names one calendar date. *)
Record TimexProperty : Type := mkTimexProperty {
  year : option nat;
  month : option nat;
  dayOfMonth : option nat
}.

(** [TimexProperty] of the recognizers-text library: parsing of an
    expression ([new TimexProperty(timex)]) and its rendering relative to
    the current date ([toNaturalLanguage(new Date(Date.now()))]). *)
Class Timex : Type := {
  parseTimex : value → TimexProperty;
  toNaturalLanguage : TimexProperty → string
}.

(** Modelled from the spec: the [types] of a TIMEX expression, of which the
    dialogs read only ['definite'].  An expression is definite when it
    resolves to exactly one calendar date, that is when its year, its month
    and its day of the month are all given; one that lacks the year, or
    stops at the month, is not. *)
Definition types (t : TimexProperty) : gset string :=
  match year t, month t, dayOfMonth t with
  | Some _, Some _, Some _ => {[ "definite" ]}
  | _, _, _ => ∅
  end.

(** ** dialogs/orderRecognizer.js *)

Module OrderRecognizer.
Section WithLuis.
Context `{Luis}.

Record t : Type := mk {
  recognizer : option LuisRecognizer
}.

Definition new (config : option LuisApplication) : t :=
  match config with
  | Some c =>
      let luisIsConfigured :=
        truthy (applicationId c) && truthy (endpointKey c)
          && truthy (endpoint c) in
      if luisIsConfigured then
        let recognizerOptions := mkRecognizerOptions "v4" in
        mk (Some (newLuisRecognizer c recognizerOptions))
      else mk None
  | None => mk None
  end.

Definition isConfigured (this : t) : bool :=
  bool_decide (recognizer this ≠ None).

Definition executeLuisQuery (this : t) (context : TurnContext)
  : exn RecognizerResult :=
  match recognizer this with
  | Some r => recognize r context
  | None => Throw TypeError
  end.

Record DeliverEntities : Type := mkDeliverEntities {
  deliver : value;
  itemList : value
}.

Definition getDeliverEntities (result : RecognizerResult)
  : exn DeliverEntities :=
  deliverValue ←
    match instanceDeliver (entities result) with
    | Some (d0 :: _) => Ok (VStr (instanceText d0))
    | Some [] => Throw TypeError
    | None => Ok VUndefined
    end;
  deliverItemListValue ←
    (if truthy deliverValue then
       match Deliver (entities result) with
       | Some (e0 :: _) =>
           match ItemList e0 with
           | Some (l0 :: _) => Ok (from_option VStr VUndefined (head l0))
           | Some [] => Throw TypeError
           | None => Ok VUndefined
           end
       | Some [] | None => Throw TypeError
       end
     else Ok VUndefined);
  Ok (mkDeliverEntities deliverValue deliverItemListValue).

Definition getDeliveryDate (result : RecognizerResult) : value :=
  match datetime (entities result) with
  | Some (d0 :: _) =>
      match timex d0 with
      | Some (t0 :: _) =>
          if negb (truthy (VStr t0)) then VUndefined
          else VStr (before "T"%char t0)
      | Some [] | None => VUndefined
      end
  | Some [] | None => VUndefined
  end.
End WithLuis.
End OrderRecognizer.

(** ** dialogs/orderDialog.js *)

Module OrderDialog.
Definition CONFIRM_PROMPT : string := "confirmPrompt".
Definition DATE_RESOLVER_DIALOG : string := "dateResolverDialog".
Definition TEXT_PROMPT : string := "textPrompt".
Definition WATERFALL_DIALOG : string := "waterfallDialog".

Record t : Type := mk {
  dialogId : string;
  dialogs : list string;
  initialDialogId : string
}.

Section WithTimex.
Context `{Timex}.

Definition isAmbiguous (timex : value) : bool :=
  let timexPropery := parseTimex timex in
  negb (bool_decide ("definite" ∈ types timexPropery)).

(** If an delivery item has not been provided, prompt for one. *)
Definition itemStep : WaterfallStep := λ stepContext,
  let orderDetails := options stepContext in
  if negb (truthy (getProp orderDetails "item")) then
    let messageText := "What would you like to order?" in
    let msg :=
      mkActivity messageText (Some "What would you like to order?")
        ExpectingInput in
    Ok (mkStepOutput orderDetails [] (Prompt TEXT_PROMPT msg))
  else
    Ok (mkStepOutput orderDetails [] (Next (getProp orderDetails "item"))).

(** If a delivery date has not been provided, prompt for one.
    This will use the DATE_RESOLVER_DIALOG.  (The test reads the property
    [DeliveryDate]; the property the dialogs write and pass on is
    [deliveryDate].) *)
Definition deliveryDateStep : WaterfallStep := λ stepContext,
  let orderDetails := options stepContext in
  (* Capture the results of the previous step *)
  let orderDetails := <["item" := result stepContext]> orderDetails in
  if negb (truthy (getProp orderDetails "DeliveryDate"))
     || isAmbiguous (getProp orderDetails "deliveryDate")
  then
    Ok (mkStepOutput orderDetails []
          (BeginDialog DATE_RESOLVER_DIALOG
             {[ "date" := getProp orderDetails "deliveryDate" ]}))
  else
    Ok (mkStepOutput orderDetails []
          (Next (getProp orderDetails "deliveryDate"))).

Definition confirmText (orderDetails : obj) : string :=
  "Please confirm, I have you ordering: "
    +:+ toString (getProp orderDetails "item")
    +:+ " on: " +:+ toString (getProp orderDetails "deliveryDate")
    +:+ ". Is this correct?".

(** Confirm the information the user has provided. *)
Definition confirmStep : WaterfallStep := λ stepContext,
  let orderDetails := options stepContext in
  (* Capture the results of the previous step *)
  let orderDetails := <["deliveryDate" := result stepContext]> orderDetails in
  let messageText := confirmText orderDetails in
  let msg := mkActivity messageText (Some messageText) ExpectingInput in
  (* Offer a YES/NO prompt. *)
  Ok (mkStepOutput orderDetails [] (Prompt CONFIRM_PROMPT msg)).

(** Complete the interaction and end the dialog. *)
Definition finalStep : WaterfallStep := λ stepContext,
  if isTrue (result stepContext) then
    let orderDetails := options stepContext in
    Ok (mkStepOutput (options stepContext) []
          (EndDialog (VObj orderDetails)))
  else
    Ok (mkStepOutput (options stepContext) [] (EndDialog VUndefined)).

Definition waterfall : list WaterfallStep :=
  [itemStep; deliveryDateStep; confirmStep; finalStep].
End WithTimex.

Definition new (id : option string) : t :=
  mk (match id with
      | Some s => if truthy (VStr s) then s else "orderDialog"
      | None => "orderDialog"
      end)
     [TEXT_PROMPT; CONFIRM_PROMPT; DATE_RESOLVER_DIALOG; WATERFALL_DIALOG]
     WATERFALL_DIALOG.
End OrderDialog.

(** ** dialogs/dateResolverDialog.js *)

Module DateResolverDialog.
Section WithTimex.
Context `{Timex}.

(** Modelled from the spec: the two things the resolver asks the user. *)
Inductive question : Type :=
  | AskDate         (* no date yet: ask for one *)
  | AskClarify.     (* a date that is not definite: ask again *)

(** Modelled from the spec: [dateResolverDialog.js] is not among the
    sources.  Given a date expression, possibly absent: if it is absent,
    prompt for a date; if it is not definite, prompt again with a
    clarifying question; a definite expression is the result. *)
Definition resolverStep (date : value) : question + value :=
  if negb (truthy date) then inl AskDate
  else if OrderDialog.isAmbiguous date then inl AskClarify
  else inr date.

(** Modelled from the spec: the retry loop of the resolver, with no cap
    on the number of rounds.  [replies] are the date expressions parsed
    from the user's successive answers ([undefined] for an answer that
    did not parse).  The result is [None] while the resolver still waits
    for an answer. *)
Fixpoint resolve (date : value) (replies : list value)
  : list question * option value :=
  match resolverStep date with
  | inr d => ([], Some d)
  | inl q =>
      match replies with
      | [] => ([q], None)
      | r :: rest => let '(qs, d) := resolve r rest in (q :: qs, d)
      end
  end.
End WithTimex.
End DateResolverDialog.

(** ** dialogs/mainDialog.js *)

Module MainDialog.
Definition MAIN_WATERFALL_DIALOG : string := "mainWaterfallDialog".

Section WithCollaborators.
Context `{Luis} `{Timex}.

Record t : Type := mk {
  dialogId : string;
  luisRecognizer : OrderRecognizer.t;
  dialogs : list string;
  initialDialogId : string
}.

Definition new (luisRecognizer : option OrderRecognizer.t)
    (orderDialog : option OrderDialog.t) : exn t :=
  match luisRecognizer with
  | None =>
      Throw (Error
        "[MainDialog]: Missing parameter 'luisRecognizer' is required")
  | Some recognizer =>
      match orderDialog with
      | None =>
          Throw (Error
            "[MainDialog]: Missing parameter 'orderDialog' is required")
      | Some orderDialog =>
          (* Define the main dialog and its related components. *)
          Ok (mk "MainDialog" recognizer
                (addDialog
                   (addDialog (addDialog [] "TextPrompt")
                      (OrderDialog.dialogId orderDialog))
                   MAIN_WATERFALL_DIALOG)
                MAIN_WATERFALL_DIALOG)
      end
  end.

Definition notConfiguredText : string :=
  "NOTE: LUIS is not configured. To enable all capabilities, add `LuisAppId`, `LuisAPIKey` and `LuisAPIHostName` to the .env file.".

Definition welcomeText : string :=
  "What can I help you with today?" +:+ newline
    +:+ "Say something like " +:+ dquote
    +:+ "Deliver 10 kg rice on March 22, 2020" +:+ dquote.

(** First step in the waterfall dialog. Prompts the user for a command. *)
Definition introStep (this : t) : WaterfallStep := λ stepContext,
  if negb (OrderRecognizer.isConfigured (luisRecognizer this)) then
    let messageText := notConfiguredText in
    Ok (mkStepOutput (options stepContext)
          [Sent (mkActivity messageText None IgnoringInput)]
          (Next VUndefined))
  else
    let restartMsg := getProp (options stepContext) "restartMsg" in
    let messageText :=
      if truthy restartMsg then toString restartMsg else welcomeText in
    let promptMessage :=
      mkActivity messageText (Some messageText) ExpectingInput in
    Ok (mkStepOutput (options stepContext) []
          (Prompt "TextPrompt" promptMessage)).

Definition notDeliverableText (unsupportedItems : list value) : string :=
  "Sorry but the following items are not deliverable: "
    +:+ join ", " unsupportedItems.

(** Shows a warning if the requested items are recognized as entities but
    they are not in the ItemList entity list. *)
Definition showWarningForUnsupportedItems
    (deliverEntities : OrderRecognizer.DeliverEntities) : list event :=
  let unsupportedItems :=
    if truthy (OrderRecognizer.deliver deliverEntities)
       && negb (truthy (OrderRecognizer.itemList deliverEntities))
    then [OrderRecognizer.deliver deliverEntities]
    else [] in
  match unsupportedItems with
  | [] => []
  | _ =>
      let messageText := notDeliverableText unsupportedItems in
      [Sent (mkActivity messageText (Some messageText) IgnoringInput)]
  end.

Definition didntUnderstandText (intent : string) : string :=
  "Sorry, I didn't get that. Please try asking in a different way (intent was "
    +:+ intent +:+ ")".

(** Second step in the waterfall.  This will use LUIS to attempt to
    extract the delivery items and delivery dates.  Then, it hands off to
    the orderDialog child dialog to collect any remaining details. *)
Definition actStep (this : t) : WaterfallStep := λ stepContext,
  let orderDetails : obj := ∅ in
  if negb (OrderRecognizer.isConfigured (luisRecognizer this)) then
    (* LUIS is not configured, we just run the OrderingDialog path. *)
    Ok (mkStepOutput (options stepContext) []
          (BeginDialog "orderDialog" orderDetails))
  else
    (* Call LUIS and gather any potential booking details. *)
    luisResult ←
      OrderRecognizer.executeLuisQuery (luisRecognizer this)
        (context stepContext);
    let queried := LuisQuery (context stepContext) in
    if String.eqb (topIntent luisResult) "PlaceOrder" then
      deliverEntities ← OrderRecognizer.getDeliverEntities luisResult;
      (* Show a warning for items if we can't resolve them. *)
      let warning := showWarningForUnsupportedItems deliverEntities in
      (* Initialize OrderDetails with any entities we may have found.
         (The details are also written to the console.) *)
      let orderDetails :=
        <["item" := OrderRecognizer.itemList deliverEntities]>
          orderDetails in
      let orderDetails :=
        <["deliveryDate" := OrderRecognizer.getDeliveryDate luisResult]>
          orderDetails in
      Ok (mkStepOutput (options stepContext) (queried :: warning)
            (BeginDialog "orderDialog" orderDetails))
    else
      (* Catch all for unhandled intents *)
      let didntUnderstandMessageText :=
        didntUnderstandText (topIntent luisResult) in
      Ok (mkStepOutput (options stepContext)
            [queried;
             Sent (mkActivity didntUnderstandMessageText
                     (Some didntUnderstandMessageText) IgnoringInput)]
            (Next VUndefined)).

Definition orderedText (item : value) (deliveryDateMsg : string) : string :=
  "I have ordered you " +:+ toString item +:+ " on "
    +:+ deliveryDateMsg +:+ ".".

(** This is the final step in the main waterfall dialog.  It wraps up the
    sample "place an order" interaction with a simple confirmation. *)
Definition finalStep (this : t) : WaterfallStep := λ stepContext,
  let completion :=
    (* If the child dialog was cancelled or the user failed to confirm,
       the result here will be null. *)
    if truthy (result stepContext) then
      let result := result stepContext in
      let timeProperty := parseTimex (prop result "deliveryDate") in
      let deliveryDateMsg := toNaturalLanguage timeProperty in
      let msg := orderedText (prop result "item") deliveryDateMsg in
      [Sent (mkActivity msg (Some msg) IgnoringInput)]
    else [] in
  (* Restart the main dialog with a different message the second time
     around *)
  Ok (mkStepOutput (options stepContext) completion
        (ReplaceDialog (initialDialogId this)
           {[ "restartMsg" := VStr "What else can I do for you?" ]})).

Definition waterfall (this : t) : list WaterfallStep :=
  [introStep this; actStep this; finalStep this].
End WithCollaborators.
End MainDialog.

(** ** Runs of the order form *)

(** The collaborators of the order form as one oracle: the user types
    [reply] at the text prompt, the date resolver ends with [date], the
    confirm prompt ends with [confirmed] (or is still open, [None]); all of
    it arrives in turns whose context is [ctx]. *)
Definition answers (ctx : TurnContext) (reply : string) (date : value)
    (confirmed : option value)
  : DialogTurnResult → option (TurnContext * value) := λ request,
  match request with
  | Prompt id _ =>
      if String.eqb id OrderDialog.TEXT_PROMPT then Some (ctx, VStr reply)
      else if String.eqb id OrderDialog.CONFIRM_PROMPT then
        pair ctx <$> confirmed
      else None
  | BeginDialog id _ =>
      if String.eqb id OrderDialog.DATE_RESOLVER_DIALOG then Some (ctx, date)
      else None
  | _ => None
  end.

(** The condition under which [deliveryDateStep] begins the date resolver,
    as a predicate of the order record. *)
Definition resolves `{Timex} (orderDetails : obj) : bool :=
  negb (truthy (getProp orderDetails "DeliveryDate"))
  || OrderDialog.isAmbiguous (getProp orderDetails "deliveryDate").

(** The prompts of the order form. *)
Definition itemPrompt : DialogTurnResult :=
  Prompt OrderDialog.TEXT_PROMPT
    (mkActivity "What would you like to order?"
       (Some "What would you like to order?") ExpectingInput).

Definition confirmPrompt (orderDetails : obj) : DialogTurnResult :=
  Prompt OrderDialog.CONFIRM_PROMPT
    (mkActivity (OrderDialog.confirmText orderDetails)
       (Some (OrderDialog.confirmText orderDetails)) ExpectingInput).

Definition resolverRequest (orderDetails : obj) : DialogTurnResult :=
  BeginDialog OrderDialog.DATE_RESOLVER_DIALOG
    {[ "date" := getProp orderDetails "deliveryDate" ]}.

(** What a run of the order form stores and asks, read off the record it
    was begun with: the item is the pre-filled one or else the user's
    reply, the date is the resolver's result or else the pre-filled one. *)
Definition storedItem (order : obj) (reply : string) : value :=
  if truthy (getProp order "item") then getProp order "item" else VStr reply.

Definition storedDate `{Timex} (order : obj) (date : value) : value :=
  if resolves order then date else getProp order "deliveryDate".

Definition storedOrder `{Timex} (order : obj) (reply : string) (date : value)
  : obj :=
  <["deliveryDate" := storedDate order date]>
    (<["item" := storedItem order reply]> order).

Definition requests `{Timex} (order : obj) (reply : string) (date : value)
  : list event :=
  (if truthy (getProp order "item") then [] else [Requested itemPrompt])
  ++ (if resolves order
      then [Requested
              (resolverRequest (<["item" := storedItem order reply]> order))]
      else [])
  ++ [Requested (confirmPrompt (storedOrder order reply date))].

(** Where the order form stands once the confirm prompt is reached: waiting
    at it, or ended by its answer. *)
Definition settled (confirmed : option value) (stored : obj) : outcome :=
  match confirmed with
  | None => Waiting 2 stored (confirmPrompt stored)
  | Some answer => Ended (if isTrue answer then VObj stored else VUndefined)
  end.

(** The options with which the main dialog restarts itself. *)
Definition restartOptions : obj :=
  {[ "restartMsg" := VStr "What else can I do for you?" ]}.

Definition orderFormRequest (orderDetails : obj) : DialogTurnResult :=
  BeginDialog "orderDialog" orderDetails.

(** The hand-backs that wait for an answer. *)
Definition asks (request : DialogTurnResult) : Prop :=
  match request with
  | Prompt _ _ | BeginDialog _ _ => True
  | _ => False
  end.

Definition isSent (e : event) : bool :=
  match e with Sent _ => true | _ => false end.

Definition isLuisQuery (e : event) : bool :=
  match e with LuisQuery _ => true | _ => false end.

Definition beginsDialog (id : string) (e : event) : bool :=
  match e with
  | Requested (BeginDialog id' _) => String.eqb id' id
  | _ => false
  end.

Definition promptsWith (id : string) (e : event) : bool :=
  match e with
  | Requested (Prompt id' _) => String.eqb id' id
  | _ => false
  end.

(** The first TIMEX string of a LUIS result, when the [datetime] entity,
    its first element, that element's [timex] list and the list's first
    string are all there. *)
Definition firstTimex (result : RecognizerResult) : option string :=
  datetimeEntity ← datetime (entities result);
  first ← head datetimeEntity;
  timexList ← timex first;
  head timexList.

(** ** unnamed/part_000: the news bot *)

Module EmptyBot.
(** The regular expressions of the bot: anchored at the start of the text
    ([^]), without regard to case ([/i]), made of characters, [.] and
    starred characters. *)
Inductive atom : Type :=
  | Chr (c : ascii)
  | Dot.

Inductive piece : Type :=
  | One (a : atom)
  | Star (a : atom).

(** Case folding of [/i]: a letter is compared through its upper case.
    Characters outside ASCII never equal an ASCII letter this way. *)
Definition canonicalize (c : ascii) : ascii :=
  let n := nat_of_ascii c in
  if (97 <=? n) && (n <=? 122) then ascii_of_nat (n - 32) else c.

Definition lineTerminator (c : ascii) : bool :=
  Ascii.eqb c "010"%char || Ascii.eqb c "013"%char.

Definition matchAtom (a : atom) (c : ascii) : bool :=
  match a with
  | Chr p => Ascii.eqb (canonicalize p) (canonicalize c)
  | Dot => negb (lineTerminator c)
  end.

(** Does the expression match a prefix of the text? *)
Fixpoint matchHere (r : list piece) : string → bool :=
  match r with
  | [] => λ _, true
  | One a :: r' => λ s,
      match s with
      | String c s' => matchAtom a c && matchHere r' s'
      | EmptyString => false
      end
  | Star a :: r' =>
      fix star (s : string) : bool :=
        matchHere r' s
        || match s with
           | String c s' => matchAtom a c && star s'
           | EmptyString => false
           end
  end.

(** [regex.test(text)]: the argument is converted to a string first. *)
Definition test (r : list piece) (text : value) : bool :=
  matchHere r (toString text).

(** A run of plain characters. *)
Fixpoint literal (s : string) : list piece :=
  match s with
  | EmptyString => []
  | String c s' => One (Chr c) :: literal s'
  end.

(** [/^get news*/i], [/^add.*/i], [/^remove.*/i], [/^clear categories/i] *)
Definition getNews : list piece := literal "get new" ++ [Star (Chr "s"%char)].
Definition add : list piece := literal "add" ++ [Star Dot].
Definition remove : list piece := literal "remove" ++ [Star Dot].
Definition clearCategories : list piece := literal "clear categories".


End EmptyBot.

(** ** Vocabulary of the further properties *)

(** The dialog that a hand-back asks for. *)
Definition requestId (request : DialogTurnResult) : option string :=
  match request with
  | Prompt id _ | BeginDialog id _ => Some id
  | _ => None
  end.

(** [p] is a prefix of [s], letters compared without regard to case. *)
Fixpoint startsWith (p s : string) : bool :=
  match p with
  | EmptyString => true
  | String a p' =>
      match s with
      | String c s' =>
          Ascii.eqb (EmptyBot.canonicalize a) (EmptyBot.canonicalize c)
          && startsWith p' s'
      | EmptyString => false
      end
  end.


(** The completion message of the main dialog for a stored order. *)
Definition completion `{Timex} (stored : obj) : Activity :=
  let msg :=
    MainDialog.orderedText (getProp stored "item")
      (toNaturalLanguage (parseTimex (getProp stored "deliveryDate"))) in
  mkActivity msg (Some msg) IgnoringInput.

(** ** Sample collaborators *)

(** A stand-in for the LUIS application of the sample: utterances that start
    with "Deliver" are orders; rice is in the catalogue, a bicycle is not. *)
Module SampleLuis.
Definition riceOrder : string := "Deliver 10 kg rice on March 22, 2020".
Definition bicycleOrder : string := "Deliver a bicycle".

Definition answer (_ : LuisApplication) (context : TurnContext)
  : RecognizerResult :=
  let said := activityText context in
  if String.eqb said riceOrder then
    mkRecognizerResult said
      (mkEntities (Some [mkInstanceData "rice"])
         (Some [mkDeliverEntity (Some [["rice"]])])
         (Some [mkDateTimeSpec (Some ["2020-03-22"])]))
  else if String.eqb said bicycleOrder then
    mkRecognizerResult said
      (mkEntities (Some [mkInstanceData "bicycle"])
         (Some [mkDeliverEntity None]) None)
  else mkRecognizerResult said (mkEntities None None None).

Definition intentOf (result : RecognizerResult) : string :=
  if String.prefix "Deliver" (utterance result) then "PlaceOrder"
  else "None".

#[export] Instance luis : Luis := {|
  LuisRecognizer := LuisApplication;
  newLuisRecognizer := λ application _, application;
  recognize := λ application context, Ok (answer application context);
  topIntent := intentOf
|}.

Definition application : LuisApplication :=
  mkLuisApplication (VStr "app-id") (VStr "key") (VStr "https://luis.example").
End SampleLuis.

(** A stand-in for the TIMEX library on the date forms [YYYY-MM-DD],
    [YYYY-MM] and [YYYY], where a run of [X] stands for a part that is not
    given. *)
Module SampleTimex.
Definition digit (a : ascii) : option nat :=
  let n := nat_of_ascii a in
  if (48 <=? n) && (n <=? 57) then Some (n - 48) else None.

Fixpoint number (acc : nat) (s : string) : option nat :=
  match s with
  | EmptyString => Some acc
  | String a s' => d ← digit a; number (10 * acc + d) s'
  end.

Definition part (s : string) : option nat :=
  if String.eqb s "" then None else number 0 s.

Fixpoint splitOn (c : ascii) (s : string) : list string :=
  match s with
  | EmptyString => [EmptyString]
  | String a s' =>
      if Ascii.eqb a c then EmptyString :: splitOn c s'
      else match splitOn c s' with
           | [] => [String a EmptyString]
           | w :: ws => String a w :: ws
           end
  end.

Definition parseDate (timex : value) : TimexProperty :=
  match timex with
  | VStr s =>
      match splitOn "-"%char s with
      | [y; m; d] => mkTimexProperty (part y) (part m) (part d)
      | [y; m] => mkTimexProperty (part y) (part m) None
      | [y] => mkTimexProperty (part y) None None
      | _ => mkTimexProperty None None None
      end
  | _ => mkTimexProperty None None None
  end.

Definition show (n : option nat) : string :=
  from_option pretty "?" n.

Definition render (t : TimexProperty) : string :=
  show (year t) +:+ "-" +:+ show (month t) +:+ "-" +:+ show (dayOfMonth t).

#[export] Instance timexLibrary : Timex := {|
  parseTimex := parseDate;
  toNaturalLanguage := render
|}.
End SampleTimex.

(** ** Sample inputs *)

Module Samples.
(** A LUIS result whose date carries a time of day. *)
Definition morningOrder : RecognizerResult :=
  mkRecognizerResult "Deliver rice tomorrow morning"
    (mkEntities None None
       (Some [mkDateTimeSpec (Some ["2020-03-22T10:00"])])).

(** The order record that LUIS pre-fills for the rice order. *)
Definition riceOrder : obj :=
  <["deliveryDate" := VStr "2020-03-22"]> (<["item" := VStr "rice"]> ∅).

Definition turn (said : string) : TurnContext := mkTurnContext said.

Definition unconfigured `{Luis} : OrderRecognizer.t :=
  OrderRecognizer.new None.

Definition configured : OrderRecognizer.t (H := SampleLuis.luis) :=
  OrderRecognizer.new (Some SampleLuis.application).

(** The main dialog without and with LUIS. *)
Definition offlineDialog : MainDialog.t (H := SampleLuis.luis) :=
  MainDialog.mk "MainDialog" unconfigured
    ["TextPrompt"; "orderDialog"; MainDialog.MAIN_WATERFALL_DIALOG]
    MainDialog.MAIN_WATERFALL_DIALOG.

Definition onlineDialog : MainDialog.t (H := SampleLuis.luis) :=
  MainDialog.mk "MainDialog" configured
    ["TextPrompt"; "orderDialog"; MainDialog.MAIN_WATERFALL_DIALOG]
    MainDialog.MAIN_WATERFALL_DIALOG.

(** What the recogniser reads off the bicycle order: a phrase, but no
    catalogue item. *)
Definition bicycle : OrderRecognizer.DeliverEntities :=
  OrderRecognizer.mkDeliverEntities (VStr "bicycle") VUndefined.
End Samples.

Module MoreSamples.
(** A LUIS result that names a phrase in its instance data but carries no
    Deliver entity to go with it. *)
Definition phraseOnly : RecognizerResult :=
  mkRecognizerResult "Deliver a bicycle"
    (mkEntities (Some [mkInstanceData "bicycle"]) None None).

(** A LUIS result whose date is a time of day alone. *)
Definition timeOnly : RecognizerResult :=
  mkRecognizerResult "Deliver rice at ten"
    (mkEntities None None (Some [mkDateTimeSpec (Some ["T10:00"])])).

(** What LUIS answers to the rice order. *)
Definition riceResult : RecognizerResult :=
  SampleLuis.answer SampleLuis.application
    (Samples.turn SampleLuis.riceOrder).

(** An order record whose caller also set the property that
    [deliveryDateStep] tests. *)
Definition datedOrder : obj :=
  <["DeliveryDate" := VStr "2020-03-22"]> Samples.riceOrder.



(** A LUIS service that cannot be reached: every query is rejected. *)
Definition unreachable : JsError := Error "LUIS cannot be reached".

Definition unreachableLuis : Luis := {|
  LuisRecognizer := LuisApplication;
  newLuisRecognizer := λ application _, application;
  recognize := λ _ _, Throw unreachable;
  topIntent := λ _, "None"
|}.


(** The user answers the text prompt of the main dialog with [said]; the
    order form is not answered. *)
Definition userSays (said : string)
  : DialogTurnResult → option (TurnContext * value) := λ request,
  match request with
  | Prompt id _ =>
      if String.eqb id "TextPrompt" then Some (Samples.turn said, VStr said)
      else None
  | _ => None
  end.

(** The step context in which the rice order reaches [actStep]. *)
Definition riceTurn : WaterfallStepContext :=
  mkStepContext (Samples.turn SampleLuis.riceOrder) ∅
    (VStr SampleLuis.riceOrder).
End MoreSamples.

(** * Properties *)

(** ** Values and strings *)

Lemma getProp_insert (o : obj) (k : string) (v : value) :
  getProp (<[k := v]> o) k = v.
Proof. unfold getProp. by rewrite lookup_insert_eq. Qed.

Lemma getProp_insert_ne (o : obj) (k k' : string) (v : value) :
  k ≠ k' → getProp (<[k := v]> o) k' = getProp o k'.
Proof. intros Hne. unfold getProp. by rewrite lookup_insert_ne. Qed.

Lemma before_contains (c : ascii) (s : string) :
  contains c (before c s) = false.
Proof.
  induction s as [|a s IH]; [done|].
  cbn [before]. destruct (Ascii.eqb a c) eqn:Hac; [done|].
  cbn [contains]. by rewrite Hac, IH.
Qed.

Lemma before_without (c : ascii) (s : string) :
  contains c s = false → before c s = s.
Proof.
  induction s as [|a s IH]; [done|].
  cbn [before contains]. destruct (Ascii.eqb a c); [done|].
  cbn [orb]. intros Hs. by rewrite IH.
Qed.

Lemma truthy_VStr (s : string) : truthy (VStr s) = false ↔ s = "".
Proof.
  cbn [truthy]. rewrite negb_false_iff. apply String.eqb_eq.
Qed.

(** ** The waterfall loop *)

Section WaterfallProperties.
Variable respond : DialogTurnResult → option (TurnContext * value).
Variables (step : WaterfallStep) (rest : list WaterfallStep).
Variables (index : nat) (ctx : TurnContext) (opts : obj) (res : value).
Variables (stored : obj) (sent : list event).

Lemma runSteps_next (v : value) :
  step (mkStepContext ctx opts res) = Ok (mkStepOutput stored sent (Next v)) →
  runSteps respond (step :: rest) index ctx opts res =
    prepend sent (runSteps respond rest (S index) ctx stored v).
Proof. intros Hstep. cbn [runSteps]. by rewrite Hstep. Qed.

Lemma runSteps_end (v : value) :
  step (mkStepContext ctx opts res)
    = Ok (mkStepOutput stored sent (EndDialog v)) →
  runSteps respond (step :: rest) index ctx opts res = (sent, Ended v).
Proof. intros Hstep. cbn [runSteps]. by rewrite Hstep. Qed.

Lemma runSteps_replace (id : string) (o : obj) :
  step (mkStepContext ctx opts res)
    = Ok (mkStepOutput stored sent (ReplaceDialog id o)) →
  runSteps respond (step :: rest) index ctx opts res = (sent, Replaced id o).
Proof. intros Hstep. cbn [runSteps]. by rewrite Hstep. Qed.

Lemma runSteps_throw (e : JsError) :
  step (mkStepContext ctx opts res) = Throw e →
  runSteps respond (step :: rest) index ctx opts res = ([], Failed e).
Proof. intros Hstep. cbn [runSteps]. by rewrite Hstep. Qed.

Lemma runSteps_wait (request : DialogTurnResult) :
  step (mkStepContext ctx opts res) = Ok (mkStepOutput stored sent request) →
  asks request →
  respond request = None →
  runSteps respond (step :: rest) index ctx opts res =
    (sent ++ [Requested request], Waiting index stored request).
Proof.
  intros Hstep Hasks Hnone. cbn [runSteps]. rewrite Hstep.
  destruct request; cbn in *; try done; by rewrite Hnone.
Qed.

Lemma runSteps_answered (request : DialogTurnResult)
    (ctx' : TurnContext) (v : value) :
  step (mkStepContext ctx opts res) = Ok (mkStepOutput stored sent request) →
  asks request →
  respond request = Some (ctx', v) →
  runSteps respond (step :: rest) index ctx opts res =
    prepend (sent ++ [Requested request])
      (runSteps respond rest (S index) ctx' stored v).
Proof.
  intros Hstep Hasks Hsome. cbn [runSteps]. rewrite Hstep.
  destruct request; cbn in *; try done; by rewrite Hsome.
Qed.
End WaterfallProperties.

(** Runs the first step of the waterfall in the goal; [tac] proves what
    that step returns, and the answer of the oracle is computed or taken
    from the context. *)
Ltac run_step tac :=
  first
    [ erewrite runSteps_next; [|tac]
    | erewrite runSteps_end; [|tac]
    | erewrite runSteps_replace; [|tac]
    | erewrite runSteps_answered;
        [|tac|exact I|first [reflexivity|eassumption]]
    | erewrite runSteps_wait;
        [|tac|exact I|first [reflexivity|eassumption]] ].

(** ** The intent recogniser *)

Section RecognizerProperties.
Import OrderRecognizer.

Lemma getDeliveryDate_firstTimex (result : RecognizerResult) :
  getDeliveryDate result =
    match firstTimex result with
    | Some s => if truthy (VStr s) then VStr (before "T"%char s) else VUndefined
    | None => VUndefined
    end.
Proof.
  unfold getDeliveryDate, firstTimex.
  destruct (datetime (entities result)) as [[|d0 ds]|]; cbn; try done.
  destruct (timex d0) as [[|t0 ts]|]; cbn; try done.
  by destruct (String.eqb t0 "").
Qed.


End RecognizerProperties.

(** ** Construction *)

Section ConstructionProperties.
Context `{Luis} `{Timex}.

Lemma new_without_config_unconfigured :
  OrderRecognizer.isConfigured (OrderRecognizer.new None) = false.
Proof. reflexivity. Qed.

Lemma new_with_falsy_setting_unconfigured (config : LuisApplication) :
  truthy (applicationId config) && truthy (endpointKey config)
    && truthy (endpoint config) = false →
  OrderRecognizer.isConfigured (OrderRecognizer.new (Some config)) = false.
Proof. intros Hc. unfold OrderRecognizer.new. by rewrite Hc. Qed.

(** C7: constructing the main dialog without the recogniser or without
    the order dialog throws at construction time; with both it succeeds
    and keeps the recogniser it was given, also when that recogniser is
    not configured (built without its settings). *)
Theorem MainDialog_new_requires_collaborators :
  (∀ orderDialog, ∃ message,
      MainDialog.new None orderDialog = Throw (Error message))
  ∧ (∀ luisRecognizer, ∃ message,
      MainDialog.new luisRecognizer None = Throw (Error message))
  ∧ (∀ luisRecognizer orderDialog, ∃ this,
      MainDialog.new (Some luisRecognizer) (Some orderDialog) = Ok this
      ∧ MainDialog.luisRecognizer this = luisRecognizer
      ∧ MainDialog.initialDialogId this = MainDialog.MAIN_WATERFALL_DIALOG)
  ∧ (∀ orderDialog, ∃ this,
      MainDialog.new (Some (OrderRecognizer.new None)) (Some orderDialog)
        = Ok this
      ∧ OrderRecognizer.isConfigured (MainDialog.luisRecognizer this)
        = false).
Proof.
  repeat split.
  - intros orderDialog. by eexists.
  - intros [luisRecognizer|]; by eexists.
  - intros luisRecognizer orderDialog. by eexists.
  - intros orderDialog. by eexists.
Qed.
End ConstructionProperties.

(** ** Definite and ambiguous dates *)

Section DateProperties.
Context `{Timex}.
Import OrderDialog DateResolverDialog.

Lemma isAmbiguous_fields (date : value) :
  isAmbiguous date =
    negb (bool_decide (is_Some (year (parseTimex date))
                       ∧ is_Some (month (parseTimex date))
                       ∧ is_Some (dayOfMonth (parseTimex date)))).
Proof.
  unfold isAmbiguous, types. f_equal. apply bool_decide_ext.
  destruct (year _) as [y|], (month _) as [m|], (dayOfMonth _) as [d|];
    rewrite ?elem_of_singleton, ?elem_of_empty, <-?not_eq_None_Some;
    naive_solver.
Qed.

Lemma resolverStep_accepts (date answer : value) :
  resolverStep date = inr answer →
  answer = date ∧ isAmbiguous date = false ∧ truthy date = true.
Proof.
  unfold resolverStep.
  destruct (truthy date), (isAmbiguous date); cbn [negb]; try done.
  by intros [= ->].
Qed.

Lemma resolve_definite (replies : list value) :
  ∀ date questions answer,
    resolve date replies = (questions, Some answer) →
    isAmbiguous answer = false ∧ truthy answer = true
    ∧ (answer = date ∨ answer ∈ replies).
Proof.
  induction replies as [|r rest IH]; intros date questions answer;
    cbn [resolve]; destruct (resolverStep date) as [q|d] eqn:Hstep.
  - done.
  - intros [= <- <-]. apply resolverStep_accepts in Hstep as (-> & ? & ?).
    auto.
  - destruct (resolve r rest) as [qs d] eqn:Hr. intros [= <- ->].
    destruct (IH _ _ _ Hr) as (? & ? & [->|?]); set_solver.
  - intros [= <- <-]. apply resolverStep_accepts in Hstep as (-> & ? & ?).
    auto.
Qed.

Lemma resolve_accepts_definite (date : value) (replies : list value) :
  truthy date = true → isAmbiguous date = false →
  resolve date replies = ([], Some date).
Proof.
  intros Hdate Hdefinite.
  destruct replies; cbn [resolve]; unfold resolverStep;
    by rewrite Hdate, Hdefinite.
Qed.

(** C9: a date expression that lacks the year, or that stops at the month
    (no day of the month, as "2020-03"), is classified ambiguous: it does
    not have the type 'definite'.  The resolver answers it with a
    question instead of accepting it, and whatever the resolver ends with
    is definite.  Only an expression with year, month and day of the
    month is classified definite. *)
Theorem incomplete_date_is_ambiguous (date : value) :
  ((year (parseTimex date) = None ∨ dayOfMonth (parseTimex date) = None) →
     ("definite" ∉ types (parseTimex date))
     ∧ isAmbiguous date = true
     ∧ (∃ q, resolverStep date = inl q)
     ∧ ∀ replies, ∃ q questions answer,
         resolve date replies = (q :: questions, answer)
         ∧ ∀ accepted, answer = Some accepted →
             accepted ∈ replies ∧ isAmbiguous accepted = false)
  ∧ (isAmbiguous date = false ↔
       is_Some (year (parseTimex date))
       ∧ is_Some (month (parseTimex date))
       ∧ is_Some (dayOfMonth (parseTimex date))).
Proof.
  split.
  - intros Hlacks.
    assert (isAmbiguous date = true) as Ha.
    { rewrite isAmbiguous_fields. apply negb_true_iff, bool_decide_eq_false.
      rewrite <-!not_eq_None_Some. naive_solver. }
    assert (∃ q, resolverStep date = inl q) as [q Hq].
    { unfold resolverStep. rewrite Ha. destruct (truthy date); by eexists. }
    split_and!.
    + unfold isAmbiguous in Ha.
      by apply negb_true_iff, bool_decide_eq_false in Ha.
    + done.
    + by eexists.
    + intros replies. destruct replies as [|r rest]; cbn [resolve]; rewrite Hq.
      * by eexists _, _, _.
      * destruct (resolve r rest) as [qs d] eqn:Hr.
        eexists _, _, _. split; [done|]. intros accepted ->.
        destruct (resolve_definite _ _ _ _ Hr) as (? & ? & [->|?]);
          set_solver.
  - rewrite isAmbiguous_fields, negb_false_iff, bool_decide_eq_true. done.
Qed.
End DateProperties.

Lemma incomplete_date_is_ambiguous_witness :
  OrderDialog.isAmbiguous (H := SampleTimex.timexLibrary) (VStr "2020-03")
    = true
  ∧ OrderDialog.isAmbiguous (H := SampleTimex.timexLibrary) (VStr "XXXX-03-22")
    = true.
Proof.
  split.
  - apply (proj1 (incomplete_date_is_ambiguous
                    (H := SampleTimex.timexLibrary) (VStr "2020-03"))).
    right. reflexivity.
  - apply (proj1 (incomplete_date_is_ambiguous
                    (H := SampleTimex.timexLibrary) (VStr "XXXX-03-22"))).
    left. reflexivity.
Defined.

(** ** The order form *)

Section OrderFormProperties.
Context `{Timex}.
Import OrderDialog.

Lemma itemStep_set (stepContext : WaterfallStepContext) :
  truthy (getProp (options stepContext) "item") = true →
  itemStep stepContext =
    Ok (mkStepOutput (options stepContext) []
          (Next (getProp (options stepContext) "item"))).
Proof. intros Hitem. unfold itemStep. by rewrite Hitem. Qed.

Lemma itemStep_unset (stepContext : WaterfallStepContext) :
  truthy (getProp (options stepContext) "item") = false →
  itemStep stepContext =
    Ok (mkStepOutput (options stepContext) [] itemPrompt).
Proof. intros Hitem. unfold itemStep. by rewrite Hitem. Qed.

Lemma deliveryDateStep_eq (ctx : TurnContext) (order : obj) (item : value) :
  deliveryDateStep (mkStepContext ctx order item) =
    let stored := <["item" := item]> order in
    Ok (mkStepOutput stored []
          (if resolves order then resolverRequest stored
           else Next (getProp order "deliveryDate"))).
Proof.
  unfold deliveryDateStep, resolves, resolverRequest. cbn [options result].
  rewrite !getProp_insert_ne by done.
  by destruct (_ || _).
Qed.

Lemma confirmStep_eq (ctx : TurnContext) (order : obj) (date : value) :
  confirmStep (mkStepContext ctx order date) =
    let stored := <["deliveryDate" := date]> order in
    Ok (mkStepOutput stored [] (confirmPrompt stored)).
Proof. reflexivity. Qed.

Lemma finalStep_eq (ctx : TurnContext) (order : obj) (answer : value) :
  finalStep (mkStepContext ctx order answer) =
    Ok (mkStepOutput order []
          (EndDialog (if isTrue answer then VObj order else VUndefined))).
Proof. unfold finalStep. cbn [options result]. by destruct (isTrue answer). Qed.

Section Answered.
Variables (turn : TurnContext) (reply : string) (date : value).
Variable confirmed : option value.

Let respond := answers turn reply date confirmed.

Lemma run_from_confirm (ctx : TurnContext) (order : obj) (resolved : value) :
  runSteps respond [confirmStep; finalStep] 2 ctx order resolved =
    let stored := <["deliveryDate" := resolved]> order in
    ([Requested (confirmPrompt stored)], settled confirmed stored).
Proof.
  unfold settled, respond. destruct confirmed as [answer|].
  - run_step ltac:(apply confirmStep_eq).
    run_step ltac:(apply finalStep_eq). done.
  - run_step ltac:(apply confirmStep_eq). done.
Qed.

Lemma run_from_date (ctx : TurnContext) (order : obj) (item : value) :
  runSteps respond [deliveryDateStep; confirmStep; finalStep] 1
      ctx order item =
    let stored :=
      <["deliveryDate" := storedDate order date]> (<["item" := item]> order)
    in
    ((if resolves order
      then [Requested (resolverRequest (<["item" := item]> order))]
      else []) ++ [Requested (confirmPrompt stored)],
     settled confirmed stored).
Proof.
  unfold storedDate. destruct (resolves order) eqn:Hresolves.
  - run_step ltac:(rewrite deliveryDateStep_eq, Hresolves; reflexivity).
    by rewrite run_from_confirm.
  - run_step ltac:(rewrite deliveryDateStep_eq, Hresolves; reflexivity).
    by rewrite run_from_confirm.
Qed.

Lemma run_order_form (ctx : TurnContext) (order : obj) :
  beginWaterfall respond waterfall ctx order =
    (requests order reply date, settled confirmed (storedOrder order reply date)).
Proof.
  unfold beginWaterfall, waterfall, requests, storedOrder, storedItem.
  destruct (truthy (getProp order "item")) eqn:Hitem.
  - run_step ltac:(by apply itemStep_set). by rewrite run_from_date.
  - run_step ltac:(by apply itemStep_unset). by rewrite run_from_date.
Qed.
End Answered.

Lemma resolves_without_DeliveryDate (order : obj) :
  order !! "DeliveryDate" = None → resolves order = true.
Proof. intros Hnone. unfold resolves, getProp. by rewrite Hnone. Qed.

(** Whatever the date, a record on which [DeliveryDate] was never written
    is handed to the resolver. *)
Lemma prefilled_order_waits_for_resolver (ctx : TurnContext) (order : obj) :
  truthy (getProp order "item") = true →
  order !! "DeliveryDate" = None →
  beginWaterfall unanswered waterfall ctx order =
    let stored := <["item" := getProp order "item"]> order in
    ([Requested (resolverRequest stored)],
     Waiting 1 stored (resolverRequest stored)).
Proof.
  intros Hitem Hnone. unfold beginWaterfall, waterfall.
  run_step ltac:(by apply itemStep_set).
  run_step ltac:(rewrite deliveryDateStep_eq, resolves_without_DeliveryDate
                   by done; reflexivity).
  reflexivity.
Qed.

Lemma requests_without_text_prompt (order : obj) (reply : string)
    (date : value) :
  truthy (getProp order "item") = true →
  Forall (λ e, promptsWith TEXT_PROMPT e = false) (requests order reply date).
Proof.
  intros Hitem. unfold requests. rewrite Hitem.
  destruct (resolves order); repeat constructor.
Qed.

(** C3: when the confirm prompt yields [true], the order form ends with
    the order record exactly as it stood at the confirm prompt: the
    record holds the item and the delivery date last stored by the
    waterfall, and nothing is written to it between the prompt and the
    return. *)
Theorem confirmed_order_is_returned (ctx turn : TurnContext) (order : obj)
    (reply : string) (date : value) :
  (∀ respond ctx' record,
      resumeWaterfall respond waterfall 2 ctx' record (VBool true)
        = ([], Ended (VObj record)))
  ∧ ∃ stored,
      (beginWaterfall (answers turn reply date None) waterfall ctx order).2
        = Waiting 2 stored (confirmPrompt stored)
      ∧ (beginWaterfall (answers turn reply date (Some (VBool true)))
           waterfall ctx order).2
        = Ended (VObj stored)
      ∧ getProp stored "item" = storedItem order reply
      ∧ getProp stored "deliveryDate" = storedDate order date
      ∧ ∀ k, k ≠ "item" → k ≠ "deliveryDate" → stored !! k = order !! k.
Proof.
  split.
  - intros respond ctx' record. unfold resumeWaterfall, waterfall.
    cbn [drop]. run_step ltac:(apply finalStep_eq). done.
  - exists (storedOrder order reply date). rewrite !run_order_form.
    split_and!; try done; unfold storedOrder.
    + by rewrite getProp_insert_ne, getProp_insert.
    + by rewrite getProp_insert.
    + intros k Hitem Hdate. by rewrite !lookup_insert_ne.
Qed.

(** C8: when the item of the order record is already set (truthy, the
    test of the source), the item step asks nothing and passes the item
    on, and the record keeps it; otherwise the step prompts for free text
    and the user's reply is stored as the item, unchanged. *)
Theorem itemStep_skips_or_prompts (ctx turn : TurnContext) (order : obj)
    (reply : string) (date previous : value) :
  ∃ asked stored,
    beginWaterfall (answers turn reply date None) waterfall ctx order
      = (asked, Waiting 2 stored (confirmPrompt stored))
    ∧ (truthy (getProp order "item") = true →
         itemStep (mkStepContext ctx order previous)
           = Ok (mkStepOutput order [] (Next (getProp order "item")))
         ∧ Forall (λ e, promptsWith TEXT_PROMPT e = false) asked
         ∧ getProp stored "item" = getProp order "item")
    ∧ (truthy (getProp order "item") = false →
         itemStep (mkStepContext ctx order previous)
           = Ok (mkStepOutput order [] itemPrompt)
         ∧ head asked = Some (Requested itemPrompt)
         ∧ getProp stored "item" = VStr reply).
Proof.
  exists (requests order reply date), (storedOrder order reply date).
  split; [apply run_order_form|].
  assert (getProp (storedOrder order reply date) "item"
          = storedItem order reply) as Hstored.
  { unfold storedOrder. by rewrite getProp_insert_ne, getProp_insert. }
  rewrite Hstored. unfold storedItem. split; intros Hitem; rewrite Hitem.
  - split_and!; [by apply itemStep_set| |done].
    by apply requests_without_text_prompt.
  - split_and!; [by apply itemStep_unset| |done].
    unfold requests. by rewrite Hitem.
Qed.

Lemma declined_order_ends_empty (answer : value) :
  isTrue answer = false →
  (∀ respond ctx record,
      resumeWaterfall respond waterfall 2 ctx record answer
        = ([], Ended VUndefined))
  ∧ (∀ turn ctx order reply date,
      (beginWaterfall (answers turn reply date (Some answer))
         waterfall ctx order).2 = Ended VUndefined).
Proof.
  intros Hno. split.
  - intros respond ctx record. unfold resumeWaterfall, waterfall.
    cbn [drop]. run_step ltac:(apply finalStep_eq). by rewrite Hno.
  - intros turn ctx order reply date. rewrite run_order_form.
    cbn [snd settled]. by rewrite Hno.
Qed.
End OrderFormProperties.

Lemma confirmed_order_is_returned_witness :
  resumeWaterfall unanswered
    (OrderDialog.waterfall (H := SampleTimex.timexLibrary)) 2
    (Samples.turn "yes") Samples.riceOrder (VBool true)
  = ([], Ended (VObj Samples.riceOrder)).
Proof.
  apply (confirmed_order_is_returned (H := SampleTimex.timexLibrary)
           (Samples.turn "hello") (Samples.turn "yes") ∅ "rice"
           (VStr "2020-03-22")).
Defined.

(** The sample utterance of the welcome message, recognised by LUIS, makes
    the main dialog begin the order form with the rice order, and without
    a warning. *)
Example actStep_riceOrder :
  MainDialog.actStep Samples.onlineDialog
    (mkStepContext (Samples.turn SampleLuis.riceOrder) ∅
       (VStr SampleLuis.riceOrder))
  = Ok (mkStepOutput ∅ [LuisQuery (Samples.turn SampleLuis.riceOrder)]
          (orderFormRequest Samples.riceOrder)).
Proof. reflexivity. Qed.

(** C1, as the code has it: the order record pre-filled with the item
    "rice" and the delivery date "2020-03-22" holds a definite date, and
    yet the form does not go on to the confirm prompt: [deliveryDateStep]
    begins the date resolver with that date and waits for it, because it
    tests the property [DeliveryDate], which no step ever writes. *)
Theorem definite_date_is_sent_to_resolver :
  OrderDialog.isAmbiguous (H := SampleTimex.timexLibrary)
    (getProp Samples.riceOrder "deliveryDate") = false
  ∧ truthy (getProp Samples.riceOrder "item") = true
  ∧ beginWaterfall unanswered
      (OrderDialog.waterfall (H := SampleTimex.timexLibrary))
      (Samples.turn SampleLuis.riceOrder) Samples.riceOrder
    = ([Requested (resolverRequest Samples.riceOrder)],
       Waiting 1 Samples.riceOrder (resolverRequest Samples.riceOrder)).
Proof. split_and!; reflexivity. Qed.

Lemma itemStep_skips_or_prompts_witness :
  OrderDialog.itemStep
    (mkStepContext (Samples.turn "hello") Samples.riceOrder VUndefined)
    = Ok (mkStepOutput Samples.riceOrder [] (Next (VStr "rice")))
  ∧ OrderDialog.itemStep (mkStepContext (Samples.turn "hello") ∅ VUndefined)
    = Ok (mkStepOutput ∅ [] itemPrompt).
Proof.
  split.
  - destruct (itemStep_skips_or_prompts (H := SampleTimex.timexLibrary)
                (Samples.turn "hello") (Samples.turn "bicycle")
                Samples.riceOrder "bicycle" (VStr "2020-03-22") VUndefined)
      as (asked & stored & _ & Hset & _).
    apply Hset. reflexivity.
  - destruct (itemStep_skips_or_prompts (H := SampleTimex.timexLibrary)
                (Samples.turn "hello") (Samples.turn "bicycle")
                ∅ "bicycle" (VStr "2020-03-22") VUndefined)
      as (asked & stored & _ & _ & Hunset).
    apply Hunset. reflexivity.
Defined.

(** ** The main flow *)

Section MainFlowProperties.
Context `{Luis} `{Timex}.
Import MainDialog.

Variable this : MainDialog.t.

Lemma executeLuisQuery_configured (ctx : TurnContext)
    (luisResult : RecognizerResult) :
  OrderRecognizer.executeLuisQuery (luisRecognizer this) ctx = Ok luisResult →
  OrderRecognizer.isConfigured (luisRecognizer this) = true.
Proof.
  unfold OrderRecognizer.executeLuisQuery, OrderRecognizer.isConfigured.
  by destruct (OrderRecognizer.recognizer _).
Qed.

Lemma introStep_unconfigured (stepContext : WaterfallStepContext) :
  OrderRecognizer.isConfigured (luisRecognizer this) = false →
  introStep this stepContext =
    Ok (mkStepOutput (options stepContext)
          [Sent (mkActivity notConfiguredText None IgnoringInput)]
          (Next VUndefined)).
Proof. intros Hoff. unfold introStep. by rewrite Hoff. Qed.

Lemma actStep_unconfigured (stepContext : WaterfallStepContext) :
  OrderRecognizer.isConfigured (luisRecognizer this) = false →
  actStep this stepContext =
    Ok (mkStepOutput (options stepContext) [] (orderFormRequest ∅)).
Proof. intros Hoff. unfold actStep. by rewrite Hoff. Qed.

Lemma actStep_order (stepContext : WaterfallStepContext)
    (luisResult : RecognizerResult)
    (found : OrderRecognizer.DeliverEntities) :
  OrderRecognizer.executeLuisQuery (luisRecognizer this)
    (context stepContext) = Ok luisResult →
  topIntent luisResult = "PlaceOrder" →
  OrderRecognizer.getDeliverEntities luisResult = Ok found →
  actStep this stepContext =
    Ok (mkStepOutput (options stepContext)
          (LuisQuery (context stepContext)
             :: showWarningForUnsupportedItems found)
          (orderFormRequest
             (<["deliveryDate" := OrderRecognizer.getDeliveryDate luisResult]>
                (<["item" := OrderRecognizer.itemList found]> ∅)))).
Proof.
  intros Hquery Hintent Hfound. unfold actStep.
  rewrite (executeLuisQuery_configured _ _ Hquery), Hquery. cbn.
  rewrite Hintent. cbn. by rewrite Hfound.
Qed.

Lemma actStep_other (stepContext : WaterfallStepContext)
    (luisResult : RecognizerResult) :
  OrderRecognizer.executeLuisQuery (luisRecognizer this)
    (context stepContext) = Ok luisResult →
  topIntent luisResult ≠ "PlaceOrder" →
  actStep this stepContext =
    Ok (mkStepOutput (options stepContext)
          [LuisQuery (context stepContext);
           Sent (mkActivity (didntUnderstandText (topIntent luisResult))
                   (Some (didntUnderstandText (topIntent luisResult)))
                   IgnoringInput)]
          (Next VUndefined)).
Proof.
  intros Hquery Hintent. unfold actStep.
  rewrite (executeLuisQuery_configured _ _ Hquery), Hquery. cbn.
  apply String.eqb_neq in Hintent. by rewrite Hintent.
Qed.

Lemma finalStep_empty (stepContext : WaterfallStepContext) :
  truthy (result stepContext) = false →
  finalStep this stepContext =
    Ok (mkStepOutput (options stepContext) []
          (ReplaceDialog (initialDialogId this) restartOptions)).
Proof. intros Hempty. unfold finalStep. by rewrite Hempty. Qed.

Lemma finalStep_sends_no_query (stepContext : WaterfallStepContext) :
  ∃ sent,
    finalStep this stepContext =
      Ok (mkStepOutput (options stepContext) sent
            (ReplaceDialog (initialDialogId this) restartOptions))
    ∧ Forall (λ e, isLuisQuery e = false) sent.
Proof.
  unfold finalStep. destruct (truthy (result stepContext));
    eexists; (split; [reflexivity|]); repeat constructor.
Qed.

Lemma begin_unconfigured respond (ctx : TurnContext) (opts : obj) :
  OrderRecognizer.isConfigured (luisRecognizer this) = false →
  beginWaterfall respond (waterfall this) ctx opts
    = prepend [Sent (mkActivity notConfiguredText None IgnoringInput)]
        (runSteps respond [actStep this; finalStep this] 1 ctx opts
           VUndefined).
Proof.
  intros Hoff. unfold beginWaterfall, waterfall.
  by run_step ltac:(by apply introStep_unconfigured).
Qed.

(** C2: when the recogniser is not configured, the main dialog, whatever
    the user wrote, notes that LUIS is missing and begins the order form
    with an empty order record (neither item nor delivery date); LUIS is
    not queried, neither up to there nor in the rest of the run of the
    waterfall. *)
Theorem unconfigured_begins_empty_order (ctx : TurnContext) (opts : obj) :
  OrderRecognizer.isConfigured (luisRecognizer this) = false →
  beginWaterfall unanswered (waterfall this) ctx opts
    = ([Sent (mkActivity notConfiguredText None IgnoringInput);
        Requested (orderFormRequest ∅)],
       Waiting 1 opts (orderFormRequest ∅))
  ∧ (∀ previous,
       actStep this (mkStepContext ctx opts previous)
         = Ok (mkStepOutput opts [] (orderFormRequest ∅)))
  ∧ (∀ respond,
       Forall (λ e, isLuisQuery e = false)
         (beginWaterfall respond (waterfall this) ctx opts).1).
Proof.
  intros Hoff. split_and!.
  - rewrite begin_unconfigured by done.
    run_step ltac:(by apply actStep_unconfigured). reflexivity.
  - intros previous. by apply actStep_unconfigured.
  - intros respond. rewrite begin_unconfigured by done.
    destruct (respond (orderFormRequest ∅)) as [[ctx' v]|] eqn:Hanswer.
    + run_step ltac:(by apply actStep_unconfigured).
      destruct (finalStep_sends_no_query (mkStepContext ctx' opts v))
        as (sent & Hfinal & Hsent).
      run_step ltac:(exact Hfinal). cbn. by repeat constructor.
    + run_step ltac:(by apply actStep_unconfigured). repeat constructor.
Qed.

(** C4: when the confirm prompt yields anything but [true], the order
    form ends with no result ([undefined]), whatever it had stored; the
    main dialog, resumed with that empty result, sends no completion
    message and only restarts itself. *)
Theorem declined_order_surfaces_nothing (answer : value) :
  isTrue answer = false →
  (∀ respond ctx record,
      resumeWaterfall respond OrderDialog.waterfall 2 ctx record answer
        = ([], Ended VUndefined))
  ∧ (∀ turn ctx order reply date,
      (beginWaterfall (answers turn reply date (Some answer))
         OrderDialog.waterfall ctx order).2 = Ended VUndefined)
  ∧ (∀ respond ctx opts,
      resumeWaterfall respond (waterfall this) 1 ctx opts VUndefined
        = ([], Replaced (initialDialogId this) restartOptions)).
Proof.
  intros Hno. destruct (declined_order_ends_empty answer Hno) as [Hend Hrun].
  split_and!; [done|done|].
  intros respond ctx opts. unfold resumeWaterfall, waterfall. cbn [drop].
  by run_step ltac:(by apply finalStep_empty).
Qed.

Lemma getDeliverEntities_phrase (luisResult : RecognizerResult)
    (phrase : InstanceData) (phrases : list InstanceData)
    (entity : DeliverEntity) (others : list DeliverEntity) :
  instanceDeliver (entities luisResult) = Some (phrase :: phrases) →
  instanceText phrase ≠ "" →
  Deliver (entities luisResult) = Some (entity :: others) →
  OrderRecognizer.getDeliverEntities luisResult =
    match ItemList entity with
    | Some (canonical :: _) =>
        Ok (OrderRecognizer.mkDeliverEntities (VStr (instanceText phrase))
              (from_option VStr VUndefined (head canonical)))
    | Some [] => Throw TypeError
    | None =>
        Ok (OrderRecognizer.mkDeliverEntities (VStr (instanceText phrase))
              VUndefined)
    end.
Proof.
  intros Hphrase Htext Hentity. unfold OrderRecognizer.getDeliverEntities.
  rewrite Hphrase. cbn. apply String.eqb_neq in Htext. rewrite Htext. cbn.
  rewrite Hentity. by destruct (ItemList entity) as [[|canonical lists]|].
Qed.

(** C5: for a LUIS result with intent PlaceOrder in which a phrase was
    recognised (the instance data have a Deliver entity with a text): when
    the Deliver entity has no item list (or an item list whose first list
    is empty), so that no catalogue item was resolved, the main dialog
    sends the warning "Sorry but the following items are not deliverable:"
    followed by the phrase, and begins the order form with the item unset;
    when the item list names a catalogue item, nothing is sent, and the
    order form is begun with that item. *)
Theorem unsupported_item_is_warned (stepContext : WaterfallStepContext)
    (luisResult : RecognizerResult)
    (phrase : InstanceData) (phrases : list InstanceData)
    (entity : DeliverEntity) (others : list DeliverEntity) :
  OrderRecognizer.executeLuisQuery (luisRecognizer this)
    (context stepContext) = Ok luisResult →
  topIntent luisResult = "PlaceOrder" →
  instanceDeliver (entities luisResult) = Some (phrase :: phrases) →
  instanceText phrase ≠ "" →
  Deliver (entities luisResult) = Some (entity :: others) →
  ((ItemList entity = None ∨ ∃ lists, ItemList entity = Some ([] :: lists)) →
     actStep this stepContext
       = Ok (mkStepOutput (options stepContext)
               [LuisQuery (context stepContext);
                Sent (mkActivity
                        ("Sorry but the following items are not deliverable: "
                           +:+ instanceText phrase)
                        (Some
                           ("Sorry but the following items are not deliverable: "
                              +:+ instanceText phrase))
                        IgnoringInput)]
               (BeginDialog "orderDialog"
                  (<["deliveryDate" :=
                       OrderRecognizer.getDeliveryDate luisResult]>
                     (<["item" := VUndefined]> ∅)))))
  ∧ (∀ item items lists,
       ItemList entity = Some ((item :: items) :: lists) → item ≠ "" →
       actStep this stepContext
         = Ok (mkStepOutput (options stepContext)
                 [LuisQuery (context stepContext)]
                 (BeginDialog "orderDialog"
                    (<["deliveryDate" :=
                         OrderRecognizer.getDeliveryDate luisResult]>
                       (<["item" := VStr item]> ∅))))).
Proof.
  intros Hquery Hintent Hphrase Htext Hentity.
  pose proof (getDeliverEntities_phrase _ _ _ _ _ Hphrase Htext Hentity)
    as Hfound.
  assert (truthy (VStr (instanceText phrase)) = true) as Hthere.
  { cbn. apply String.eqb_neq in Htext. by rewrite Htext. }
  split.
  - intros Hnone.
    assert (OrderRecognizer.getDeliverEntities luisResult
            = Ok (OrderRecognizer.mkDeliverEntities
                    (VStr (instanceText phrase)) VUndefined)) as Hfound'.
    { rewrite Hfound. by destruct Hnone as [->|[lists ->]]. }
    rewrite (actStep_order _ _ _ Hquery Hintent Hfound').
    unfold showWarningForUnsupportedItems, notDeliverableText, orderFormRequest.
    cbn [OrderRecognizer.deliver OrderRecognizer.itemList].
    rewrite Hthere. reflexivity.
  - intros item items lists Hlist Hitem.
    assert (OrderRecognizer.getDeliverEntities luisResult
            = Ok (OrderRecognizer.mkDeliverEntities
                    (VStr (instanceText phrase)) (VStr item))) as Hfound'.
    { by rewrite Hfound, Hlist. }
    rewrite (actStep_order _ _ _ Hquery Hintent Hfound').
    unfold showWarningForUnsupportedItems, orderFormRequest.
    cbn [OrderRecognizer.deliver OrderRecognizer.itemList].
    assert (truthy (VStr item) = true) as Hitem'.
    { cbn. apply String.eqb_neq in Hitem. by rewrite Hitem. }
    rewrite Hthere, Hitem'. reflexivity.
Qed.

(** C6: for a LUIS result whose top intent is not PlaceOrder, the main
    dialog sends the message "Sorry, I didn't get that. Please try asking
    in a different way (intent was ...)", naming the intent, and nothing
    else; it does not begin the order form, leaves its own options as they
    were, and restarts itself: the turn ends at the prompt of a fresh main
    waterfall, with no order result and no completion message. *)
Theorem unrecognized_intent_is_reported respond (ctx : TurnContext)
    (opts : obj) (previous : value) (luisResult : RecognizerResult) :
  OrderRecognizer.executeLuisQuery (luisRecognizer this) ctx = Ok luisResult →
  topIntent luisResult ≠ "PlaceOrder" →
  let sorry :=
    "Sorry, I didn't get that. Please try asking in a different way (intent was "
      +:+ topIntent luisResult +:+ ")" in
  let whatElse := "What else can I do for you?" in
  resumeWaterfall respond (waterfall this) 0 ctx opts previous
    = ([LuisQuery ctx; Sent (mkActivity sorry (Some sorry) IgnoringInput)],
       Replaced (initialDialogId this) {[ "restartMsg" := VStr whatElse ]})
  ∧ actStep this (mkStepContext ctx opts previous)
    = Ok (mkStepOutput opts
            [LuisQuery ctx; Sent (mkActivity sorry (Some sorry) IgnoringInput)]
            (Next VUndefined))
  ∧ Forall (λ e, beginsDialog "orderDialog" e = false)
      (resumeWaterfall respond (waterfall this) 0 ctx opts previous).1
  ∧ beginWaterfall unanswered (waterfall this) ctx
      {[ "restartMsg" := VStr whatElse ]}
    = ([Requested
          (Prompt "TextPrompt"
             (mkActivity whatElse (Some whatElse) ExpectingInput))],
       Waiting 0 {[ "restartMsg" := VStr whatElse ]}
         (Prompt "TextPrompt"
            (mkActivity whatElse (Some whatElse) ExpectingInput))).
Proof.
  intros Hquery Hintent sorry whatElse.
  assert (resumeWaterfall respond (waterfall this) 0 ctx opts previous
    = ([LuisQuery ctx; Sent (mkActivity sorry (Some sorry) IgnoringInput)],
       Replaced (initialDialogId this) {[ "restartMsg" := VStr whatElse ]}))
    as Hrun.
  { unfold resumeWaterfall, waterfall. cbn [drop].
    run_step ltac:(by eapply actStep_other).
    by run_step ltac:(by apply finalStep_empty). }
  split_and!.
  - done.
  - by eapply actStep_other.
  - rewrite Hrun. by repeat constructor.
  - unfold beginWaterfall, waterfall.
    run_step ltac:(unfold introStep;
                   rewrite (executeLuisQuery_configured _ _ Hquery);
                   reflexivity).
    reflexivity.
Qed.
End MainFlowProperties.

Lemma unconfigured_begins_empty_order_witness :
  beginWaterfall unanswered
    (MainDialog.waterfall (H0 := SampleTimex.timexLibrary)
       Samples.offlineDialog)
    (Samples.turn SampleLuis.riceOrder) ∅
  = ([Sent (mkActivity MainDialog.notConfiguredText None IgnoringInput);
      Requested (orderFormRequest ∅)],
     Waiting 1 ∅ (orderFormRequest ∅)).
Proof.
  apply (unconfigured_begins_empty_order (H0 := SampleTimex.timexLibrary)
           Samples.offlineDialog (Samples.turn SampleLuis.riceOrder) ∅).
  reflexivity.
Defined.

Lemma declined_order_surfaces_nothing_witness :
  (beginWaterfall
     (answers (Samples.turn "no") "bicycle" (VStr "2020-03-22")
        (Some (VBool false)))
     (OrderDialog.waterfall (H := SampleTimex.timexLibrary))
     (Samples.turn "hello") ∅).2
  = Ended VUndefined.
Proof.
  apply (declined_order_surfaces_nothing (H0 := SampleTimex.timexLibrary)
           Samples.offlineDialog (VBool false)).
  reflexivity.
Defined.

Lemma unsupported_item_is_warned_witness :
  MainDialog.actStep Samples.onlineDialog
    (mkStepContext (Samples.turn SampleLuis.bicycleOrder) ∅
       (VStr SampleLuis.bicycleOrder))
  = Ok (mkStepOutput ∅
          [LuisQuery (Samples.turn SampleLuis.bicycleOrder);
           Sent (mkActivity
                   "Sorry but the following items are not deliverable: bicycle"
                   (Some
                      "Sorry but the following items are not deliverable: bicycle")
                   IgnoringInput)]
          (BeginDialog "orderDialog"
             (<["deliveryDate" := VUndefined]> (<["item" := VUndefined]> ∅))))
  ∧ MainDialog.actStep Samples.onlineDialog
      (mkStepContext (Samples.turn SampleLuis.riceOrder) ∅
         (VStr SampleLuis.riceOrder))
    = Ok (mkStepOutput ∅ [LuisQuery (Samples.turn SampleLuis.riceOrder)]
            (BeginDialog "orderDialog"
               (<["deliveryDate" := VStr "2020-03-22"]>
                  (<["item" := VStr "rice"]> ∅)))).
Proof.
  split.
  - apply (proj1 (unsupported_item_is_warned Samples.onlineDialog
                    (mkStepContext (Samples.turn SampleLuis.bicycleOrder) ∅
                       (VStr SampleLuis.bicycleOrder))
                    (SampleLuis.answer SampleLuis.application
                       (Samples.turn SampleLuis.bicycleOrder))
                    (mkInstanceData "bicycle") []
                    (mkDeliverEntity None) []
                    eq_refl eq_refl eq_refl
                    ltac:(discriminate) eq_refl)).
    left. reflexivity.
  - apply (proj2 (unsupported_item_is_warned Samples.onlineDialog
                    (mkStepContext (Samples.turn SampleLuis.riceOrder) ∅
                       (VStr SampleLuis.riceOrder))
                    (SampleLuis.answer SampleLuis.application
                       (Samples.turn SampleLuis.riceOrder))
                    (mkInstanceData "rice") []
                    (mkDeliverEntity (Some [["rice"]])) []
                    eq_refl eq_refl eq_refl
                    ltac:(discriminate) eq_refl)
             "rice" [] []); [reflexivity | discriminate].
Defined.

Lemma unrecognized_intent_is_reported_witness :
  resumeWaterfall unanswered
    (MainDialog.waterfall (H0 := SampleTimex.timexLibrary)
       Samples.onlineDialog)
    0 (Samples.turn "hello") ∅ (VStr "hello")
  = ([LuisQuery (Samples.turn "hello");
      Sent (mkActivity
              "Sorry, I didn't get that. Please try asking in a different way (intent was None)"
              (Some
                 "Sorry, I didn't get that. Please try asking in a different way (intent was None)")
              IgnoringInput)],
     Replaced MainDialog.MAIN_WATERFALL_DIALOG
       {[ "restartMsg" := VStr "What else can I do for you?" ]}).
Proof.
  apply (unrecognized_intent_is_reported (H0 := SampleTimex.timexLibrary)
           Samples.onlineDialog unanswered (Samples.turn "hello") ∅
           (VStr "hello")
           (SampleLuis.answer SampleLuis.application (Samples.turn "hello")));
    [reflexivity | discriminate].
Defined.

(** * Further properties *)

(** ** The news bot *)

Section NewsBotProperties.
Import EmptyBot.





Lemma matchHere_star_last (a : atom) (s : string) :
  matchHere [Star a] s = true.
Proof. by destruct s. Qed.

Lemma matchHere_literal (p : string) (r : list piece) :
  (∀ s, matchHere r s = true) →
  ∀ s, matchHere (literal p ++ r) s = startsWith p s.
Proof.
  intros Hrest. induction p as [|a p IH]; intros s; cbn [literal app].
  - apply Hrest.
  - destruct s as [|c s]; [done|]. cbn [matchHere matchAtom startsWith].
    by rewrite IH.
Qed.

Lemma tests_are_prefix_tests (text : value) :
  test getNews text = startsWith "get new" (toString text)
  ∧ test add text = startsWith "add" (toString text)
  ∧ test remove text = startsWith "remove" (toString text)
  ∧ test clearCategories text = startsWith "clear categories" (toString text).
Proof.
  unfold test, getNews, add, remove, clearCategories. split_and!.
  - apply matchHere_literal, matchHere_star_last.
  - apply matchHere_literal, matchHere_star_last.
  - apply matchHere_literal, matchHere_star_last.
  - rewrite <-(app_nil_r (literal _)). by apply matchHere_literal.
Qed.



Lemma startsWith_head (p s : string) (a : ascii) :
  startsWith (String a p) s = true →
  ∃ c s', s = String c s' ∧ canonicalize c = canonicalize a.
Proof.
  destruct s as [|c s]; [done|]. cbn [startsWith].
  intros [Hc _]%andb_prop. apply Ascii.eqb_eq in Hc. by eexists _, _.
Qed.

(** X3: the four commands exclude one another: no text matches more than
    one of the four expressions, so the order in which [onTurn] tries
    them does not matter. *)
Theorem onTurn_commands_exclusive (text : value) :
  length (filter (λ r, test r text = true)
            [getNews; add; remove; clearCategories]) ≤ 1.
Proof.
  destruct (tests_are_prefix_tests text) as (Hnews & Hadd & Hremove & Hclear).
  rewrite !filter_cons, filter_nil. rewrite Hnews, Hadd, Hremove, Hclear.
  destruct (startsWith "get new" _) eqn:H1, (startsWith "add" _) eqn:H2,
    (startsWith "remove" _) eqn:H3, (startsWith "clear categories" _) eqn:H4;
    repeat case_decide; try done; cbn [length]; try lia;
    repeat match goal with
    | H : startsWith (String _ _) _ = true |- _ =>
        apply startsWith_head in H as (? & ? & ? & ?)
    end;
    match goal with
    | H : toString text = String ?c _, H' : toString text = String ?d _,
      Hc : canonicalize ?c = _, Hd : canonicalize ?d = _ |- _ =>
        rewrite H in H'; injection H' as <- _;
        rewrite Hc in Hd; vm_compute in Hd; discriminate
    end.
Qed.

End NewsBotProperties.



(** ** The intent recogniser, further *)

Section RecognizerFurther.
Context `{Luis}.
Import OrderRecognizer.

Lemma isConfigured_is_Some (this : OrderRecognizer.t) :
  isConfigured this = true ↔ is_Some (recognizer this).
Proof.
  unfold isConfigured. by rewrite bool_decide_eq_true, not_eq_None_Some.
Qed.

(** X5: a recogniser is configured exactly when it was constructed with a
    configuration whose three settings are all there (truthy); it then
    holds the LUIS client built from that configuration for the API
    version v4. *)
Theorem isConfigured_new (config : option LuisApplication) :
  (isConfigured (new config) = true ↔
     ∃ c, config = Some c
          ∧ truthy (applicationId c) = true
          ∧ truthy (endpointKey c) = true
          ∧ truthy (endpoint c) = true)
  ∧ (∀ c, config = Some c → isConfigured (new config) = true →
       recognizer (new config)
         = Some (newLuisRecognizer c (mkRecognizerOptions "v4"))).
Proof.
  rewrite isConfigured_is_Some. unfold new. destruct config as [c|].
  - destruct (truthy (applicationId c) && truthy (endpointKey c)
              && truthy (endpoint c)) eqn:Hall; cbn [recognizer].
    + apply andb_prop in Hall as [[Ha Hk]%andb_prop He].
      split; [split; by eexists|]. intros c' Hc _. by simplify_eq.
    + split; [split|].
      * intros Hsome. by apply is_Some_None in Hsome.
      * intros (c' & Hc & Ha & Hk & He). simplify_eq.
        by rewrite Ha, Hk, He in Hall.
      * intros c' _ Hsome%isConfigured_is_Some.
        by apply is_Some_None in Hsome.
  - split; [split|].
    + intros Hsome. by apply is_Some_None in Hsome.
    + by intros (? & ? & _).
    + done.
Qed.

(** X6: a recogniser constructed without a configuration, or with one
    that lacks a setting, throws a TypeError when it is queried, without
    calling the service (there is no client to call).  One constructed
    with all three settings hands the query to the client built from
    them for the API version v4, and returns or throws what that client
    does. *)
Theorem executeLuisQuery_needs_configuration
    (config : option LuisApplication) (context : TurnContext) :
  (isConfigured (new config) = false →
     executeLuisQuery (new config) context = Throw TypeError)
  ∧ (∀ c, config = Some c →
       truthy (applicationId c) = true →
       truthy (endpointKey c) = true →
       truthy (endpoint c) = true →
       executeLuisQuery (new config) context
         = recognize (newLuisRecognizer c (mkRecognizerOptions "v4")) context).
Proof.
  unfold executeLuisQuery. split.
  - unfold isConfigured. intros Hoff.
    destruct (recognizer (new config)); [|done].
    apply bool_decide_eq_false in Hoff. by destruct Hoff.
  - intros c -> Ha Hk He. unfold new. by rewrite Ha, Hk, He.
Qed.
End RecognizerFurther.

Section EntityProperties.
Import OrderRecognizer.

(** X7: [getDeliverEntities] never reports a catalogue item without the
    phrase it was recognised in: the item list is looked at only when the
    phrase is there.  Without a Deliver entity in the instance data both
    fields are undefined, whatever the entities hold, and nothing is
    thrown. *)
Theorem getDeliverEntities_item_needs_phrase (result : RecognizerResult) :
  (∀ found, getDeliverEntities result = Ok found →
     truthy (deliver found) = false → itemList found = VUndefined)
  ∧ (instanceDeliver (entities result) = None →
     getDeliverEntities result = Ok (mkDeliverEntities VUndefined VUndefined)).
Proof.
  unfold getDeliverEntities. split.
  - intros found.
    destruct (instanceDeliver (entities result)) as [[|d0 ds]|]; cbn;
      try done.
    + destruct (truthy (VStr (instanceText d0))) eqn:Hphrase.
      * cbn in Hphrase. rewrite Hphrase.
        destruct (Deliver (entities result)) as [[|e0 es]|]; cbn; try done.
        destruct (ItemList e0) as [[|l0 ls]|]; cbn; try done;
          intros [= <-]; cbn; congruence.
      * cbn in Hphrase. rewrite Hphrase. cbn. by intros [= <-].
    + by intros [= <-].
  - by intros ->.
Qed.

(** X8: [getDeliverEntities] throws, and then a TypeError, in these cases
    only: the instance data list the Deliver entity with no element; or a
    phrase was recognised and the entities have no Deliver element to go
    with it, or that element's ItemList is an empty list. *)
Theorem getDeliverEntities_throws (result : RecognizerResult) (e : JsError) :
  getDeliverEntities result = Throw e ↔
    e = TypeError
    ∧ (instanceDeliver (entities result) = Some []
       ∨ ∃ d0 ds, instanceDeliver (entities result) = Some (d0 :: ds)
           ∧ instanceText d0 ≠ ""
           ∧ (Deliver (entities result) = None
              ∨ Deliver (entities result) = Some []
              ∨ ∃ e0 es, Deliver (entities result) = Some (e0 :: es)
                         ∧ ItemList e0 = Some [])).
Proof.
  unfold getDeliverEntities.
  destruct (instanceDeliver (entities result)) as [[|d0 ds]|]; cbn.
  - split; [intros [= <-]; auto|]. by intros [-> _].
  - destruct (String.eqb (instanceText d0) "") eqn:Hphrase; cbn.
    + apply String.eqb_eq in Hphrase. split; [done|].
      intros (_ & [?|(? & ? & [= <- <-] & ? & _)]); done.
    + apply String.eqb_neq in Hphrase.
      destruct (Deliver (entities result)) as [[|e0 es]|]; cbn.
      * split; [intros [= <-]|intros [-> _]]; [|done].
        split; [done|]. right. eexists _, _. naive_solver.
      * destruct (ItemList e0) as [[|l0 ls]|] eqn:Hlist; cbn.
        -- split; [intros [= <-]|intros [-> _]]; [|done].
           split; [done|]. right. eexists _, _. naive_solver.
        -- split; [done|]. intros (_ & [?|(? & ? & _ & _ & Hwhy)]); [done|].
           destruct Hwhy as [?|[?|(? & ? & [= <- <-] & ?)]]; congruence.
        -- split; [done|]. intros (_ & [?|(? & ? & _ & _ & Hwhy)]); [done|].
           destruct Hwhy as [?|[?|(? & ? & [= <- <-] & ?)]]; congruence.
      * split; [intros [= <-]|intros [-> _]]; [|done].
        split; [done|]. right. eexists _, _. naive_solver.
  - split; [done|]. intros (_ & [?|(? & ? & ? & _)]); done.
Qed.

Lemma before_split (c : ascii) (s : string) :
  ∃ rest, s = before c s +:+ rest ∧ (rest = "" ∨ ∃ t, rest = String c t).
Proof.
  induction s as [|a s (rest & Hs & Hrest)].
  - exists "". auto.
  - cbn [before]. destruct (Ascii.eqb a c) eqn:Ha.
    + apply Ascii.eqb_eq in Ha as ->. exists (String c s).
      split; [done|]. right. by eexists.
    + exists rest. split; [|done].
      change (String a s = String a (before c s +:+ rest)). by f_equal.
Qed.

(** X9: [getDeliveryDate] drops the time of day and nothing else: what it
    returns, followed by nothing or by a part that starts with 'T', is the
    first timex string.  A timex string without a 'T' comes back as it is;
    one that starts with 'T' (a time without a date) gives the empty
    string, not [undefined]. *)
Theorem getDeliveryDate_drops_time (result : RecognizerResult) :
  (∀ date, getDeliveryDate result = VStr date →
     ∃ s rest, firstTimex result = Some s ∧ s = date +:+ rest
               ∧ (rest = "" ∨ ∃ time, rest = String "T"%char time))
  ∧ (∀ s, firstTimex result = Some s → s ≠ "" →
       contains "T"%char s = false → getDeliveryDate result = VStr s)
  ∧ (∀ time, firstTimex result = Some (String "T"%char time) →
       getDeliveryDate result = VStr "").
Proof.
  rewrite getDeliveryDate_firstTimex.
  destruct (firstTimex result) as [s|]; split_and!; try done.
  - intros date. destruct (truthy (VStr s)); [|done]. intros [= <-].
    destruct (before_split "T"%char s) as (rest & Hs & Hrest).
    by exists s, rest.
  - intros s' [= <-] Hs Hdate. rewrite before_without by done.
    destruct (truthy (VStr s)) eqn:Ht; [done|]. by apply truthy_VStr in Ht.
  - by intros time [= ->].
Qed.
End EntityProperties.

Lemma isConfigured_new_witness :
  OrderRecognizer.isConfigured (H := SampleLuis.luis)
    (OrderRecognizer.new (Some SampleLuis.application)) = true.
Proof.
  apply (proj1 (isConfigured_new (H := SampleLuis.luis)
                  (Some SampleLuis.application))).
  exists SampleLuis.application. repeat split.
Defined.

Lemma executeLuisQuery_needs_configuration_witness :
  OrderRecognizer.executeLuisQuery (H := SampleLuis.luis)
    (OrderRecognizer.new None) (Samples.turn "hello") = Throw TypeError
  ∧ OrderRecognizer.executeLuisQuery (H := MoreSamples.unreachableLuis)
      (OrderRecognizer.new (Some SampleLuis.application))
      (Samples.turn "hello")
    = Throw MoreSamples.unreachable.
Proof.
  split.
  - apply (proj1 (executeLuisQuery_needs_configuration (H := SampleLuis.luis)
                    None (Samples.turn "hello"))).
    reflexivity.
  - apply (proj2 (executeLuisQuery_needs_configuration
                    (H := MoreSamples.unreachableLuis)
                    (Some SampleLuis.application) (Samples.turn "hello"))
             SampleLuis.application); reflexivity.
Defined.

Lemma getDeliverEntities_item_needs_phrase_witness :
  OrderRecognizer.getDeliverEntities Samples.morningOrder
    = Ok (OrderRecognizer.mkDeliverEntities VUndefined VUndefined).
Proof.
  apply (getDeliverEntities_item_needs_phrase Samples.morningOrder).
  reflexivity.
Defined.

Lemma getDeliverEntities_throws_witness :
  OrderRecognizer.getDeliverEntities MoreSamples.phraseOnly = Throw TypeError.
Proof.
  apply (getDeliverEntities_throws MoreSamples.phraseOnly TypeError).
  split; [reflexivity|]. right.
  exists (mkInstanceData "bicycle"), []. split; [reflexivity|].
  split; [discriminate|]. left. reflexivity.
Defined.

Lemma getDeliveryDate_drops_time_witness :
  OrderRecognizer.getDeliveryDate MoreSamples.riceResult = VStr "2020-03-22"
  ∧ OrderRecognizer.getDeliveryDate MoreSamples.timeOnly = VStr "".
Proof.
  split.
  - apply (proj1 (proj2 (getDeliveryDate_drops_time MoreSamples.riceResult)));
      [reflexivity | discriminate | reflexivity].
  - apply (proj2 (proj2 (getDeliveryDate_drops_time MoreSamples.timeOnly))
             "10:00").
    reflexivity.
Defined.

(** ** The order form, further *)

Section OrderFormFurther.
Context `{Timex}.
Import OrderDialog.

Variable respond : DialogTurnResult → option (TurnContext * value).

Lemma prepend_nil (r : list event * outcome) : prepend [] r = r.
Proof. by destruct r. Qed.

Lemma any_run_from_confirm (ctx : TurnContext) (order : obj) (date : value) :
  runSteps respond [confirmStep; finalStep] 2 ctx order date =
    let stored := <["deliveryDate" := date]> order in
    ([Requested (confirmPrompt stored)],
     match respond (confirmPrompt stored) with
     | None => Waiting 2 stored (confirmPrompt stored)
     | Some (_, answer) =>
         Ended (if isTrue answer then VObj stored else VUndefined)
     end).
Proof.
  cbn zeta.
  destruct (respond (confirmPrompt (<["deliveryDate" := date]> order)))
    as [[ctx' answer]|] eqn:Hanswer.
  - run_step ltac:(apply confirmStep_eq).
    run_step ltac:(apply finalStep_eq). done.
  - run_step ltac:(apply confirmStep_eq). done.
Qed.

Lemma any_run_from_date (ctx : TurnContext) (order : obj) (item : value) :
  runSteps respond [deliveryDateStep; confirmStep; finalStep] 1 ctx order item =
    let stored := <["item" := item]> order in
    if resolves order then
      match respond (resolverRequest stored) with
      | None =>
          ([Requested (resolverRequest stored)],
           Waiting 1 stored (resolverRequest stored))
      | Some (ctx', date) =>
          prepend [Requested (resolverRequest stored)]
            (runSteps respond [confirmStep; finalStep] 2 ctx' stored date)
      end
    else
      runSteps respond [confirmStep; finalStep] 2 ctx stored
        (getProp order "deliveryDate").
Proof.
  cbn zeta. destruct (resolves order) eqn:Hresolves.
  - destruct (respond (resolverRequest (<["item" := item]> order)))
      as [[ctx' date]|] eqn:Hanswer.
    + run_step ltac:(rewrite deliveryDateStep_eq, Hresolves; reflexivity). reflexivity.
    + run_step ltac:(rewrite deliveryDateStep_eq, Hresolves; reflexivity). reflexivity.
  - run_step ltac:(rewrite deliveryDateStep_eq, Hresolves; reflexivity).
    apply prepend_nil.
Qed.

Lemma any_run_from_item (ctx : TurnContext) (order : obj) :
  beginWaterfall respond waterfall ctx order =
    if truthy (getProp order "item") then
      runSteps respond [deliveryDateStep; confirmStep; finalStep] 1 ctx order
        (getProp order "item")
    else
      match respond itemPrompt with
      | None => ([Requested itemPrompt], Waiting 0 order itemPrompt)
      | Some (ctx', reply) =>
          prepend [Requested itemPrompt]
            (runSteps respond [deliveryDateStep; confirmStep; finalStep] 1
               ctx' order reply)
      end.
Proof.
  unfold beginWaterfall, waterfall.
  destruct (truthy (getProp order "item")) eqn:Hitem.
  - run_step ltac:(by apply itemStep_set). apply prepend_nil.
  - destruct (respond itemPrompt) as [[ctx' reply]|] eqn:Hanswer.
    + run_step ltac:(by apply itemStep_unset). reflexivity.
    + run_step ltac:(by apply itemStep_unset). reflexivity.
Qed.

(** X10: whoever answers its prompts and however, the order form neither
    fails nor replaces itself.  When it waits, it waits at step 0 for the
    item prompt, at step 1 for the date resolver or at step 2 for the
    confirm prompt, and the resolver and the confirm prompt are asked
    about the record as stored so far. *)
Theorem order_form_outcomes (ctx : TurnContext) (order : obj) :
  match (beginWaterfall respond waterfall ctx order).2 with
  | Waiting stepIndex stored request =>
      (stepIndex = 0 ∧ stored = order ∧ request = itemPrompt)
      ∨ (stepIndex = 1 ∧ request = resolverRequest stored)
      ∨ (stepIndex = 2 ∧ request = confirmPrompt stored)
  | Ended result => result = VUndefined ∨ ∃ stored, result = VObj stored
  | Replaced _ _ | Failed _ => False
  end.
Proof.
  rewrite any_run_from_item.
  assert (∀ turn stored date,
    match (runSteps respond [confirmStep; finalStep] 2 turn stored date).2 with
    | Waiting stepIndex stored' request =>
        (stepIndex = 0 ∧ stored' = order ∧ request = itemPrompt)
        ∨ (stepIndex = 1 ∧ request = resolverRequest stored')
        ∨ (stepIndex = 2 ∧ request = confirmPrompt stored')
    | Ended result => result = VUndefined ∨ ∃ stored', result = VObj stored'
    | Replaced _ _ | Failed _ => False
    end) as Hconfirm.
  { intros turn stored date. rewrite any_run_from_confirm. cbn.
    destruct (respond _) as [[ctx' answer]|]; [|auto].
    destruct (isTrue answer); eauto. }
  assert (∀ turn item,
    match (runSteps respond [deliveryDateStep; confirmStep; finalStep] 1
             turn order item).2 with
    | Waiting stepIndex stored' request =>
        (stepIndex = 0 ∧ stored' = order ∧ request = itemPrompt)
        ∨ (stepIndex = 1 ∧ request = resolverRequest stored')
        ∨ (stepIndex = 2 ∧ request = confirmPrompt stored')
    | Ended result => result = VUndefined ∨ ∃ stored', result = VObj stored'
    | Replaced _ _ | Failed _ => False
    end) as Hdate.
  { intros turn item. rewrite any_run_from_date. cbn zeta.
    destruct (resolves order); [|apply Hconfirm].
    destruct (respond _) as [[ctx' date]|]; [apply Hconfirm|cbn; auto]. }
  destruct (truthy (getProp order "item")); [apply Hdate|].
  destruct (respond itemPrompt) as [[ctx' reply]|]; [apply Hdate|cbn; auto].
Qed.

(** X11: the order form ends with an order record only when the confirm
    prompt showing exactly that record was asked and answered [true];
    with any other end it returns [undefined]. *)
Theorem order_form_returns_confirmed_record (ctx : TurnContext) (order : obj)
    (sent : list event) (result : value) :
  beginWaterfall respond waterfall ctx order = (sent, Ended result) →
  result = VUndefined
  ∨ ∃ stored turn,
      result = VObj stored
      ∧ Requested (confirmPrompt stored) ∈ sent
      ∧ respond (confirmPrompt stored) = Some (turn, VBool true).
Proof.
  assert (∀ turn stored date sent',
    runSteps respond [confirmStep; finalStep] 2 turn stored date
      = (sent', Ended result) →
    result = VUndefined
    ∨ ∃ stored' turn',
        result = VObj stored'
        ∧ Requested (confirmPrompt stored') ∈ sent'
        ∧ respond (confirmPrompt stored') = Some (turn', VBool true))
    as Hconfirm.
  { intros turn stored date sent'. rewrite any_run_from_confirm. cbn zeta.
    destruct (respond _) as [[ctx' answer]|] eqn:Hanswer; [|done].
    destruct answer as [| |[]|?|?]; cbn [isTrue]; intros [= <- <-]; auto.
    right. eexists _, _. split_and!; [done|set_solver|done]. }
  assert (∀ turn item sent',
    runSteps respond [deliveryDateStep; confirmStep; finalStep] 1
      turn order item = (sent', Ended result) →
    result = VUndefined
    ∨ ∃ stored' turn',
        result = VObj stored'
        ∧ Requested (confirmPrompt stored') ∈ sent'
        ∧ respond (confirmPrompt stored') = Some (turn', VBool true))
    as Hdate.
  { intros turn item sent'. rewrite any_run_from_date. cbn zeta.
    destruct (resolves order); [|apply Hconfirm].
    destruct (respond _) as [[ctx' date]|]; [|done].
    destruct (runSteps respond [confirmStep; finalStep] 2 ctx' _ date)
      as [sent'' o] eqn:Hrun.
    intros [= <- ->].
    destruct (Hconfirm _ _ _ _ Hrun) as [?|(? & ? & ? & ? & ?)]; [auto|].
    right. eexists _, _. split_and!; [done|set_solver|done]. }
  rewrite any_run_from_item.
  destruct (truthy (getProp order "item")); [apply Hdate|].
  destruct (respond itemPrompt) as [[ctx' reply]|]; [|done].
  destruct (runSteps respond [deliveryDateStep; confirmStep; finalStep] 1
              ctx' order reply) as [sent' o] eqn:Hrun.
  intros [= <- ->].
  destruct (Hdate _ _ _ Hrun) as [?|(? & ? & ? & ? & ?)]; [auto|].
  right. eexists _, _. split_and!; [done|set_solver|done].
Qed.
End OrderFormFurther.

Lemma order_form_returns_confirmed_record_witness :
  VObj (storedOrder (H := SampleTimex.timexLibrary) ∅ "bicycle"
          (VStr "2020-03-22")) = VUndefined
  ∨ ∃ stored turn,
      VObj (storedOrder (H := SampleTimex.timexLibrary) ∅ "bicycle"
              (VStr "2020-03-22")) = VObj stored
      ∧ Requested (confirmPrompt stored)
        ∈ requests (H := SampleTimex.timexLibrary) ∅ "bicycle"
            (VStr "2020-03-22")
      ∧ answers (Samples.turn "yes") "bicycle" (VStr "2020-03-22")
          (Some (VBool true)) (confirmPrompt stored)
        = Some (turn, VBool true).
Proof.
  apply (order_form_returns_confirmed_record (H := SampleTimex.timexLibrary)
           (answers (Samples.turn "yes") "bicycle" (VStr "2020-03-22")
              (Some (VBool true)))
           (Samples.turn "hello") ∅).
  apply run_order_form.
Defined.

Section ResolverSkipped.
Context `{Timex}.
Import OrderDialog.

(** X12: for an order record whose item is set, the form asks the date
    resolver or not according to two things in the record, and to nothing
    else.  When the property [DeliveryDate] is truthy and [deliveryDate]
    is definite, the form goes to the confirm prompt, which shows the item
    and the date the record came with.  In every other case it begins
    [dateResolverDialog] with { date: deliveryDate } and waits for it. *)
Theorem resolver_is_skipped (ctx : TurnContext) (order : obj) :
  truthy (getProp order "item") = true →
  let item := getProp order "item" in
  let date := getProp order "deliveryDate" in
  let question :=
    "Please confirm, I have you ordering: " +:+ toString item
      +:+ " on: " +:+ toString date +:+ ". Is this correct?" in
  let confirm :=
    Prompt "confirmPrompt"
      (mkActivity question (Some question) ExpectingInput) in
  let resolver := BeginDialog "dateResolverDialog" {[ "date" := date ]} in
  (truthy (getProp order "DeliveryDate") = true →
   isAmbiguous date = false →
     beginWaterfall unanswered waterfall ctx order
       = ([Requested confirm],
          Waiting 2 (<["deliveryDate" := date]> (<["item" := item]> order))
            confirm))
  ∧ (truthy (getProp order "DeliveryDate") = false ∨ isAmbiguous date = true →
     beginWaterfall unanswered waterfall ctx order
       = ([Requested resolver],
          Waiting 1 (<["item" := item]> order) resolver)).
Proof.
  intros Hitem item date question confirm resolver.
  rewrite any_run_from_item, Hitem, any_run_from_date. split.
  - intros Hproperty Hdefinite.
    assert (resolves order = false) as ->.
    { unfold resolves. fold date. by rewrite Hproperty, Hdefinite. }
    cbn zeta. rewrite any_run_from_confirm. cbn zeta.
    unfold unanswered, confirmPrompt, confirmText, CONFIRM_PROMPT.
    subst confirm question item date.
    by rewrite getProp_insert, getProp_insert_ne, getProp_insert.
  - intros Hwhy.
    assert (resolves order = true) as ->.
    { unfold resolves. fold date.
      destruct Hwhy as [-> | ->]; [done|apply orb_true_r]. }
    cbn zeta. unfold unanswered, resolverRequest, DATE_RESOLVER_DIALOG.
    subst resolver date. by rewrite getProp_insert_ne.
Qed.
End ResolverSkipped.

Lemma resolver_is_skipped_witness :
  beginWaterfall unanswered
    (OrderDialog.waterfall (H := SampleTimex.timexLibrary))
    (Samples.turn "hello") MoreSamples.datedOrder
  = ([Requested
        (Prompt "confirmPrompt"
           (mkActivity
              "Please confirm, I have you ordering: rice on: 2020-03-22. Is this correct?"
              (Some
                 "Please confirm, I have you ordering: rice on: 2020-03-22. Is this correct?")
              ExpectingInput))],
     Waiting 2 MoreSamples.datedOrder
       (Prompt "confirmPrompt"
          (mkActivity
             "Please confirm, I have you ordering: rice on: 2020-03-22. Is this correct?"
             (Some
                "Please confirm, I have you ordering: rice on: 2020-03-22. Is this correct?")
             ExpectingInput)))
  ∧ beginWaterfall unanswered
      (OrderDialog.waterfall (H := SampleTimex.timexLibrary))
      (Samples.turn "hello") Samples.riceOrder
    = ([Requested
          (BeginDialog "dateResolverDialog"
             {[ "date" := VStr "2020-03-22" ]})],
       Waiting 1 Samples.riceOrder
         (BeginDialog "dateResolverDialog"
            {[ "date" := VStr "2020-03-22" ]})).
Proof.
  split.
  - apply (proj1 (resolver_is_skipped (H := SampleTimex.timexLibrary)
                    (Samples.turn "hello") MoreSamples.datedOrder eq_refl));
      reflexivity.
  - apply (proj2 (resolver_is_skipped (H := SampleTimex.timexLibrary)
                    (Samples.turn "hello") Samples.riceOrder eq_refl)).
    left. reflexivity.
Defined.

(** ** The main flow, further *)

Section MainFlowFurther.
Context `{Luis} `{Timex}.
Import MainDialog.

Variable this : MainDialog.t.

Lemma actStep_query_throws (stepContext : WaterfallStepContext) (e : JsError) :
  OrderRecognizer.isConfigured (luisRecognizer this) = true →
  OrderRecognizer.executeLuisQuery (luisRecognizer this)
    (context stepContext) = Throw e →
  actStep this stepContext = Throw e.
Proof. intros Hon Hquery. unfold actStep. by rewrite Hon, Hquery. Qed.

Lemma actStep_order_throws (stepContext : WaterfallStepContext)
    (luisResult : RecognizerResult) (e : JsError) :
  OrderRecognizer.executeLuisQuery (luisRecognizer this)
    (context stepContext) = Ok luisResult →
  topIntent luisResult = "PlaceOrder" →
  OrderRecognizer.getDeliverEntities luisResult = Throw e →
  actStep this stepContext = Throw e.
Proof.
  intros Hquery Hintent Hfound. unfold actStep.
  rewrite (executeLuisQuery_configured _ _ _ Hquery), Hquery. cbn.
  rewrite Hintent. cbn. by rewrite Hfound.
Qed.


Lemma actStep_cases (stepContext : WaterfallStepContext) :
  (∃ sent order,
      actStep this stepContext
        = Ok (mkStepOutput (options stepContext) sent (orderFormRequest order))
      ∧ (order = ∅
         ∨ ∃ luisResult found,
             OrderRecognizer.getDeliverEntities luisResult = Ok found
             ∧ order
               = <["deliveryDate" := OrderRecognizer.getDeliveryDate luisResult]>
                   (<["item" := OrderRecognizer.itemList found]> ∅)))
  ∨ (∃ sent,
      actStep this stepContext
        = Ok (mkStepOutput (options stepContext) sent (Next VUndefined)))
  ∨ ∃ e, actStep this stepContext = Throw e.
Proof.
  destruct (OrderRecognizer.isConfigured (luisRecognizer this)) eqn:Hon.
  - destruct (OrderRecognizer.executeLuisQuery (luisRecognizer this)
                (context stepContext)) as [luisResult|e] eqn:Hquery.
    + destruct (decide (topIntent luisResult = "PlaceOrder"))
        as [Hintent|Hintent].
      * destruct (OrderRecognizer.getDeliverEntities luisResult)
          as [found|e] eqn:Hfound.
        -- left. eexists _, _.
           split; [by apply (actStep_order _ _ _ _ Hquery Hintent Hfound)|].
           right. by eexists _, _.
        -- right. right. exists e.
           by apply (actStep_order_throws _ _ _ Hquery Hintent Hfound).
      * right. left. eexists.
        by apply (actStep_other _ _ _ Hquery Hintent).
    + right. right. exists e. by apply actStep_query_throws.
  - left. eexists _, _. split; [by apply actStep_unconfigured|by left].
Qed.

(** X14: the main dialog never ends.  Whoever answers and however, a run
    of its waterfall waits for the user's text at step 0 or for the order
    form at step 1, with the options it was begun with; or it fails; or it
    replaces itself by its own waterfall, begun with the message "What
    else can I do for you?" for the next round. *)
Theorem main_waterfall_never_ends respond (ctx : TurnContext) (opts : obj) :
  match (beginWaterfall respond (waterfall this) ctx opts).2 with
  | Waiting stepIndex stored request =>
      stored = opts
      ∧ ((stepIndex = 0 ∧ ∃ prompt, request = Prompt "TextPrompt" prompt)
         ∨ (stepIndex = 1
            ∧ ∃ order, request = BeginDialog "orderDialog" order))
  | Replaced id options =>
      id = initialDialogId this
      ∧ options = {[ "restartMsg" := VStr "What else can I do for you?" ]}
  | Failed _ => True
  | Ended _ => False
  end.
Proof.
  assert (∀ turn result,
    (runSteps respond [finalStep this] 2 turn opts result).2
      = Replaced (initialDialogId this) restartOptions) as Hfinal.
  { intros turn result.
    destruct (finalStep_sends_no_query this (mkStepContext turn opts result))
      as (sent & Hstep & _).
    by run_step ltac:(exact Hstep). }
  assert (∀ turn result,
    match (runSteps respond [actStep this; finalStep this] 1 turn opts
             result).2 with
    | Waiting stepIndex stored request =>
        stored = opts
        ∧ ((stepIndex = 0 ∧ ∃ prompt, request = Prompt "TextPrompt" prompt)
           ∨ (stepIndex = 1
              ∧ ∃ order, request = BeginDialog "orderDialog" order))
    | Replaced id options =>
        id = initialDialogId this
        ∧ options = {[ "restartMsg" := VStr "What else can I do for you?" ]}
    | Failed _ => True
    | Ended _ => False
    end) as Hact.
  { intros turn result.
    destruct (actStep_cases (mkStepContext turn opts result))
      as [(sent & order & Hstep & _)|[(sent & Hstep)|(e & Hstep)]].
    - destruct (respond (orderFormRequest order)) as [[ctx' v]|] eqn:Hanswer.
      + run_step ltac:(exact Hstep). cbn [prepend snd]. by rewrite Hfinal.
      + run_step ltac:(exact Hstep). cbn. eauto.
    - run_step ltac:(exact Hstep). cbn [prepend snd]. by rewrite Hfinal.
    - by rewrite (runSteps_throw _ _ _ _ _ _ _ _ Hstep). }
  unfold beginWaterfall, waterfall, introStep. cbn [runSteps].
  destruct (OrderRecognizer.isConfigured (luisRecognizer this));
    cbn [negb action events optionsAfter options].
  - destruct (respond _) as [[ctx' v]|]; [|cbn; eauto].
    cbn [prepend snd]. apply Hact.
  - cbn [prepend snd]. apply Hact.
Qed.

Lemma getDeliveryDate_without_time (luisResult : RecognizerResult) :
  OrderRecognizer.getDeliveryDate luisResult = VUndefined
  ∨ ∃ date, OrderRecognizer.getDeliveryDate luisResult = VStr date
            ∧ contains "T"%char date = false.
Proof.
  rewrite getDeliveryDate_firstTimex.
  destruct (firstTimex luisResult) as [s|]; [|by left].
  destruct (truthy (VStr s)); [right|by left].
  eexists. split; [done|]. apply before_contains.
Qed.

(** X15: the order record that [actStep] hands to the order form has no
    other properties than [item] and [deliveryDate]; its delivery date is
    [undefined] or a string without a 'T'; and the step leaves the options
    of the main waterfall as they were. *)
Theorem actStep_order_record (stepContext : WaterfallStepContext)
    (out : StepOutput) (order : obj) :
  actStep this stepContext = Ok out →
  action out = orderFormRequest order →
  optionsAfter out = options stepContext
  ∧ (∀ k, k ≠ "item" → k ≠ "deliveryDate" → order !! k = None)
  ∧ (getProp order "deliveryDate" = VUndefined
     ∨ ∃ date, getProp order "deliveryDate" = VStr date
               ∧ contains "T"%char date = false).
Proof.
  intros Hstep Hrequest.
  destruct (actStep_cases stepContext)
    as [(sent & order' & Hstep' & Horder)|[(sent & Hstep')|(e & Hstep')]];
    rewrite Hstep' in Hstep; [|by simplify_eq..].
  injection Hstep as <-. cbn in Hrequest. injection Hrequest as <-.
  split; [done|].
  destruct Horder as [->|(luisResult & found & _ & ->)].
  - split; [intros; apply lookup_empty|by left].
  - split.
    + intros k Hitem Hdate. by rewrite !lookup_insert_ne.
    + rewrite getProp_insert. apply getDeliveryDate_without_time.
Qed.

(** X16: every order form that the main dialog begins goes through the
    date resolver: the record [actStep] builds never has the property
    that [deliveryDateStep] tests, so the resolver is begun with the date
    LUIS found (or [undefined]), and the delivery date shown at the
    confirm prompt is the resolver's result. *)
Theorem main_orders_go_through_resolver (stepContext : WaterfallStepContext)
    (out : StepOutput) (order : obj)
    (ctx turn : TurnContext) (reply : string) (date : value) :
  actStep this stepContext = Ok out →
  action out = orderFormRequest order →
  resolves order = true
  ∧ ∃ asked stored,
      beginWaterfall (answers turn reply date None) OrderDialog.waterfall
        ctx order
        = (asked, Waiting 2 stored (confirmPrompt stored))
      ∧ Requested
          (BeginDialog OrderDialog.DATE_RESOLVER_DIALOG
             {[ "date" := getProp order "deliveryDate" ]}) ∈ asked
      ∧ getProp stored "deliveryDate" = date.
Proof.
  intros Hstep Hrequest.
  assert (order !! "DeliveryDate" = None) as Hnone.
  { destruct (actStep_cases stepContext)
      as [(sent & order' & Hstep' & Horder)|[(sent & Hstep')|(e & Hstep')]];
      rewrite Hstep' in Hstep; [|by simplify_eq..].
    injection Hstep as <-. cbn in Hrequest. injection Hrequest as <-.
    destruct Horder as [->|(luisResult & found & _ & ->)]; [done|].
    by rewrite !lookup_insert_ne. }
  assert (resolves order = true) as Hresolves
    by by apply resolves_without_DeliveryDate.
  split; [done|].
  exists (requests order reply date), (storedOrder order reply date).
  split; [by rewrite run_order_form|]. split.
  - unfold requests, resolverRequest. rewrite Hresolves.
    rewrite getProp_insert_ne by done. set_solver.
  - unfold storedOrder, storedDate. by rewrite getProp_insert, Hresolves.
Qed.

(** X17: resumed with the record of a confirmed order, the main dialog
    sends one message, "I have ordered you ITEM on DATE.", with the item
    of the record and its delivery date put in natural language, and then
    restarts.  For the record of an order form this is the item and the
    date that the form stored last. *)
Theorem completed_order_is_announced respond (ctx turn : TurnContext)
    (opts stored : obj) (order : obj) (reply : string) (date : value) :
  resumeWaterfall respond (waterfall this) 1 ctx opts (VObj stored)
    = ([Sent (completion stored)],
       Replaced (initialDialogId this) restartOptions)
  ∧ (beginWaterfall (answers turn reply date (Some (VBool true)))
       OrderDialog.waterfall ctx order).2
    = Ended (VObj (storedOrder order reply date))
  ∧ text (completion (storedOrder order reply date))
    = "I have ordered you " +:+ toString (storedItem order reply) +:+ " on "
        +:+ toNaturalLanguage (parseTimex (storedDate order date)) +:+ ".".
Proof.
  split_and!.
  - unfold resumeWaterfall, waterfall. cbn [drop].
    by run_step ltac:(reflexivity).
  - by rewrite run_order_form.
  - unfold completion, storedOrder. cbn [text].
    by rewrite getProp_insert, getProp_insert_ne, getProp_insert.
Qed.
End MainFlowFurther.

Section RegisteredDialogs.
Context `{Luis} `{Timex}.

(** X18: every prompt or dialog that a step of the order form asks for is
    one that the constructor added to the order form, and so is the
    dialog it starts with, whatever id the form was constructed with. *)
Theorem OrderDialog_requests_registered (id : option string)
    (step : WaterfallStep) (stepContext : WaterfallStepContext)
    (out : StepOutput) (requested : string) :
  step ∈ OrderDialog.waterfall →
  step stepContext = Ok out →
  requestId (action out) = Some requested →
  requested ∈ OrderDialog.dialogs (OrderDialog.new id)
  ∧ OrderDialog.initialDialogId (OrderDialog.new id)
    ∈ OrderDialog.dialogs (OrderDialog.new id).
Proof.
  intros Hstep Hout Hrequested. split; [|set_solver].
  unfold OrderDialog.waterfall in Hstep.
  assert (requested = OrderDialog.TEXT_PROMPT
          ∨ requested = OrderDialog.DATE_RESOLVER_DIALOG
          ∨ requested = OrderDialog.CONFIRM_PROMPT) as Hwhich.
  { apply elem_of_cons in Hstep as [->|Hstep].
    { destruct (truthy (getProp (options stepContext) "item")) eqn:Hitem.
      - rewrite itemStep_set in Hout by done. by simplify_eq.
      - rewrite itemStep_unset in Hout by done. simplify_eq.
        cbn in Hrequested. simplify_eq. by left. }
    apply elem_of_cons in Hstep as [->|Hstep].
    { destruct stepContext as [ctx order item].
      rewrite deliveryDateStep_eq in Hout. cbn zeta in Hout.
      destruct (resolves order); simplify_eq; cbn in Hrequested;
        simplify_eq. by right; left. }
    apply elem_of_cons in Hstep as [->|Hstep].
    { destruct stepContext as [ctx order date].
      rewrite confirmStep_eq in Hout. cbn zeta in Hout. simplify_eq.
      cbn in Hrequested. simplify_eq. by right; right. }
    apply list_elem_of_singleton in Hstep. subst step.
    destruct stepContext as [ctx order answer].
    rewrite finalStep_eq in Hout. by simplify_eq. }
  unfold OrderDialog.new. cbn [OrderDialog.dialogs].
  destruct Hwhich as [-> | [-> | ->]]; set_solver.
Qed.

Lemma MainDialog_dialogs (id : string) :
  addDialog (addDialog (addDialog [] "TextPrompt") id)
    MainDialog.MAIN_WATERFALL_DIALOG
  = if bool_decide (id = "TextPrompt") then
      ["TextPrompt"; "TextPrompt2"; "mainWaterfallDialog"]
    else if bool_decide (id = "mainWaterfallDialog") then
      ["TextPrompt"; "mainWaterfallDialog"; "mainWaterfallDialog2"]
    else ["TextPrompt"; id; "mainWaterfallDialog"].
Proof.
  case_bool_decide as Htext; [by subst|].
  case_bool_decide as Hmain; [by subst|].
  change (addDialog [] "TextPrompt") with ["TextPrompt"].
  assert (addDialog ["TextPrompt"] id = ["TextPrompt"; id]) as ->.
  { unfold addDialog.
    by rewrite (bool_decide_eq_false_2 (id ∈ ["TextPrompt"])) by set_solver. }
  unfold addDialog, MainDialog.MAIN_WATERFALL_DIALOG.
  by rewrite bool_decide_eq_false_2 by set_solver.
Qed.

Lemma MainDialog_requests (this : MainDialog.t) (step : WaterfallStep)
    (stepContext : WaterfallStepContext) (out : StepOutput)
    (requested : string) :
  step ∈ MainDialog.waterfall this →
  step stepContext = Ok out →
  requestId (action out) = Some requested →
  requested = "TextPrompt" ∨ requested = "orderDialog".
Proof.
  intros Hstep Hout Hrequested. unfold MainDialog.waterfall in Hstep.
  apply elem_of_cons in Hstep as [->|Hstep].
  { unfold MainDialog.introStep in Hout.
    destruct (negb _); simplify_eq; cbn in Hrequested; simplify_eq.
    by left. }
  apply elem_of_cons in Hstep as [->|Hstep].
  { destruct (actStep_cases this stepContext)
      as [(sent & order & Hstep' & _)|[(sent & Hstep')|(e & Hstep')]];
      rewrite Hstep' in Hout; simplify_eq; cbn in Hrequested; simplify_eq.
    by right. }
  apply list_elem_of_singleton in Hstep. subst step.
  destruct (finalStep_sends_no_query this stepContext) as (sent & Hfinal & _).
  rewrite Hfinal in Hout. by simplify_eq.
Qed.

(** X19: the main dialog works with an order form whose id is
    "orderDialog", and with no other.  Constructed with such an order
    form, it has added the dialogs "TextPrompt", "orderDialog" and
    "mainWaterfallDialog", and every prompt or dialog that a step of its
    waterfall asks for is among them.  Constructed with an order form of
    another id, it has added no dialog of the id that [actStep] begins.
    An order form whose id is taken is added under that id with the
    suffix 2; one whose id is "mainWaterfallDialog" takes the id that the
    main dialog starts with, and the waterfall is added with the suffix
    2. *)
Theorem MainDialog_requests_registered (luisRecognizer : OrderRecognizer.t)
    (orderDialog : OrderDialog.t) (this : MainDialog.t) :
  MainDialog.new (Some luisRecognizer) (Some orderDialog) = Ok this →
  (OrderDialog.dialogId orderDialog = "orderDialog" →
     MainDialog.dialogs this
       = ["TextPrompt"; "orderDialog"; "mainWaterfallDialog"]
     ∧ MainDialog.initialDialogId this ∈ MainDialog.dialogs this
     ∧ ∀ step stepContext out requested,
         step ∈ MainDialog.waterfall this →
         step stepContext = Ok out →
         requestId (action out) = Some requested →
         requested ∈ MainDialog.dialogs this)
  ∧ (OrderDialog.dialogId orderDialog ≠ "orderDialog" →
     ∀ stepContext out id order,
       MainDialog.actStep this stepContext = Ok out →
       action out = BeginDialog id order →
       id ∉ MainDialog.dialogs this)
  ∧ (OrderDialog.dialogId orderDialog = "TextPrompt" →
     MainDialog.dialogs this
       = ["TextPrompt"; "TextPrompt2"; "mainWaterfallDialog"])
  ∧ (OrderDialog.dialogId orderDialog = "mainWaterfallDialog" →
     MainDialog.dialogs this
       = ["TextPrompt"; "mainWaterfallDialog"; "mainWaterfallDialog2"]
     ∧ MainDialog.initialDialogId this = "mainWaterfallDialog").
Proof.
  intros Hnew.
  assert (MainDialog.dialogs this
          = if bool_decide (OrderDialog.dialogId orderDialog = "TextPrompt")
            then ["TextPrompt"; "TextPrompt2"; "mainWaterfallDialog"]
            else if bool_decide
                      (OrderDialog.dialogId orderDialog
                       = "mainWaterfallDialog")
            then ["TextPrompt"; "mainWaterfallDialog"; "mainWaterfallDialog2"]
            else ["TextPrompt"; OrderDialog.dialogId orderDialog;
                  "mainWaterfallDialog"]) as Hdialogs.
  { injection Hnew as <-. apply MainDialog_dialogs. }
  assert (MainDialog.initialDialogId this = "mainWaterfallDialog")
    as Hinitial.
  { by injection Hnew as <-. }
  rewrite Hdialogs, Hinitial. clear Hnew Hdialogs Hinitial. split_and!.
  - intros ->. cbn. split_and!; [done|set_solver|].
    intros step stepContext out requested Hstep Hout Hrequested.
    destruct (MainDialog_requests _ _ _ _ _ Hstep Hout Hrequested)
      as [-> | ->]; set_solver.
  - intros Hother stepContext out id order Hout Haction.
    assert (id = "orderDialog") as ->.
    { destruct (actStep_cases this stepContext)
        as [(sent & order' & Hstep' & _)|[(sent & Hstep')|(e & Hstep')]];
        rewrite Hstep' in Hout; simplify_eq;
        cbn [action] in Haction; unfold orderFormRequest in *;
        by simplify_eq. }
    repeat case_bool_decide; set_solver.
  - by intros ->.
  - by intros ->.
Qed.
End RegisteredDialogs.


Lemma actStep_order_record_witness :
  Samples.riceOrder !! "DeliveryDate" = None.
Proof.
  apply (actStep_order_record Samples.onlineDialog MoreSamples.riceTurn
           (mkStepOutput ∅ [LuisQuery (Samples.turn SampleLuis.riceOrder)]
              (orderFormRequest Samples.riceOrder))
           Samples.riceOrder);
    [reflexivity | reflexivity | discriminate | discriminate].
Defined.

Lemma main_orders_go_through_resolver_witness :
  resolves (H := SampleTimex.timexLibrary) Samples.riceOrder = true.
Proof.
  apply (main_orders_go_through_resolver (H0 := SampleTimex.timexLibrary)
           Samples.onlineDialog MoreSamples.riceTurn
           (mkStepOutput ∅ [LuisQuery (Samples.turn SampleLuis.riceOrder)]
              (orderFormRequest Samples.riceOrder))
           Samples.riceOrder (Samples.turn "hello") (Samples.turn "yes")
           "rice" (VStr "2020-03-22")); reflexivity.
Defined.

Lemma OrderDialog_requests_registered_witness :
  OrderDialog.TEXT_PROMPT ∈ OrderDialog.dialogs (OrderDialog.new None).
Proof.
  apply (OrderDialog_requests_registered (H0 := SampleTimex.timexLibrary) None
           OrderDialog.itemStep
           (mkStepContext (Samples.turn "hello") ∅ VUndefined)
           (mkStepOutput ∅ [] itemPrompt) OrderDialog.TEXT_PROMPT);
    [left | reflexivity | reflexivity].
Defined.

Lemma MainDialog_requests_registered_witness :
  "orderDialog" ∈ MainDialog.dialogs Samples.onlineDialog.
Proof.
  destruct (MainDialog_requests_registered (H0 := SampleTimex.timexLibrary)
              Samples.configured (OrderDialog.new None)
              Samples.onlineDialog eq_refl)
    as (Hregistered & _).
  destruct (Hregistered eq_refl) as (_ & _ & Hsteps).
  apply (Hsteps
           (MainDialog.actStep Samples.onlineDialog)
           MoreSamples.riceTurn
           (mkStepOutput ∅ [LuisQuery (Samples.turn SampleLuis.riceOrder)]
              (orderFormRequest Samples.riceOrder)));
    [right; left | reflexivity | reflexivity].
Defined.

Section OrderFormFrame.
Context `{Timex}.
Import OrderDialog.

Variable respond : DialogTurnResult → option (TurnContext * value).

(** The records that differ from [order] in [item] and [deliveryDate] at
    most. *)
Let framed (order stored : obj) : Prop :=
  ∀ k, k ≠ "item" → k ≠ "deliveryDate" → stored !! k = order !! k.

Lemma framed_outcome_confirm (order : obj) (turn : TurnContext)
    (stored : obj) (date : value) :
  framed order stored →
  match (runSteps respond [confirmStep; finalStep] 2 turn stored date).2 with
  | Waiting _ stored' _ | Ended (VObj stored') => framed order stored'
  | _ => True
  end.
Proof.
  intros Hframed. rewrite any_run_from_confirm. cbn.
  assert (framed order (<["deliveryDate" := date]> stored)) as Hdate.
  { intros k Hitem Hk. rewrite lookup_insert_ne by done. by apply Hframed. }
  destruct (respond _) as [[ctx' answer]|]; [|done].
  by destruct (isTrue answer).
Qed.

(** X20: the order form writes to the properties [item] and
    [deliveryDate] of the order record and to no other: whoever answers
    and however, the record it waits with or ends with agrees with the
    record it was begun with on every other property. *)
Theorem order_form_frame (ctx : TurnContext) (order : obj) :
  match (beginWaterfall respond waterfall ctx order).2 with
  | Waiting _ stored _ | Ended (VObj stored) =>
      ∀ k, k ≠ "item" → k ≠ "deliveryDate" → stored !! k = order !! k
  | _ => True
  end.
Proof.
  assert (∀ turn item,
    match (runSteps respond [deliveryDateStep; confirmStep; finalStep] 1
             turn order item).2 with
    | Waiting _ stored _ | Ended (VObj stored) => framed order stored
    | _ => True
    end) as Hdate.
  { intros turn item. rewrite any_run_from_date. cbn zeta.
    assert (framed order (<["item" := item]> order)) as Hitem.
    { intros k Hk _. by rewrite lookup_insert_ne. }
    destruct (resolves order); [|by apply framed_outcome_confirm].
    destruct (respond _) as [[ctx' date]|]; [|done].
    by apply framed_outcome_confirm. }
  rewrite any_run_from_item.
  destruct (truthy (getProp order "item")); [apply Hdate|].
  destruct (respond itemPrompt) as [[ctx' reply]|]; [apply Hdate|done].
Qed.

(** X21: the order form sends no message of its own; all it does is ask,
    and it asks at most three things, each at most once and in this
    order: the item, the date (of the resolver), the confirmation. *)
Theorem order_form_asks_in_order (ctx : TurnContext) (order : obj) :
  ∃ dated stored,
    (beginWaterfall respond waterfall ctx order).1
      `sublist_of` [Requested itemPrompt;
                    Requested (resolverRequest dated);
                    Requested (confirmPrompt stored)].
Proof.
  assert (∀ turn dated date, ∃ stored,
    (runSteps respond [confirmStep; finalStep] 2 turn dated date).1
      = [Requested (confirmPrompt stored)]) as Hconfirm.
  { intros turn dated date. rewrite any_run_from_confirm. by eexists. }
  assert (∀ turn item, ∃ dated stored,
    (runSteps respond [deliveryDateStep; confirmStep; finalStep] 1
       turn order item).1
      `sublist_of` [Requested (resolverRequest dated);
                    Requested (confirmPrompt stored)]) as Hdate.
  { intros turn item. rewrite any_run_from_date. cbn zeta.
    exists (<["item" := item]> order).
    destruct (resolves order).
    - destruct (respond _) as [[ctx' date]|].
      + destruct (Hconfirm ctx' (<["item" := item]> order) date)
          as [stored Hsent].
        exists stored. cbn [prepend fst]. rewrite Hsent. done.
      + exists ∅. cbn. apply sublist_skip, sublist_nil_l.
    - destruct (Hconfirm turn (<["item" := item]> order)
                  (getProp order "deliveryDate")) as [stored Hsent].
      exists stored. rewrite Hsent. by apply sublist_cons. }
  rewrite any_run_from_item.
  destruct (truthy (getProp order "item")).
  - destruct (Hdate ctx (getProp order "item")) as (dated & stored & Hsub).
    exists dated, stored. by apply sublist_cons.
  - destruct (respond itemPrompt) as [[ctx' reply]|].
    + destruct (Hdate ctx' reply) as (dated & stored & Hsub).
      exists dated, stored. cbn [prepend fst app]. by apply sublist_skip.
    + exists ∅, ∅. cbn. apply sublist_skip, sublist_nil_l.
Qed.
End OrderFormFrame.

Section LuisQueries.
Context `{Luis} `{Timex}.
Import MainDialog.

Variable this : MainDialog.t.
Variable respond : DialogTurnResult → option (TurnContext * value).

Lemma count_queries_cons (e : event) (l : list event) :
  length (filter (λ e, isLuisQuery e = true) (e :: l))
  = (if isLuisQuery e then 1 else 0)
    + length (filter (λ e, isLuisQuery e = true) l).
Proof.
  rewrite filter_cons. destruct (isLuisQuery e) eqn:He; by case_decide.
Qed.

Lemma actStep_events (stepContext : WaterfallStepContext) (out : StepOutput) :
  actStep this stepContext = Ok out →
  ∃ rest,
    (events out = rest ∨ events out = LuisQuery (context stepContext) :: rest)
    ∧ Forall (λ e, isLuisQuery e = false) rest.
Proof.
  unfold actStep.
  destruct (OrderRecognizer.isConfigured (luisRecognizer this)); cbn [negb].
  - destruct (OrderRecognizer.executeLuisQuery _ _) as [luisResult|];
      cbn; [|done].
    destruct (String.eqb (topIntent luisResult) "PlaceOrder"); cbn.
    + destruct (OrderRecognizer.getDeliverEntities luisResult) as [found|];
        cbn; [|done].
      intros [= <-]. cbn [events]. eexists. split; [by right|].
      unfold showWarningForUnsupportedItems.
      destruct (_ && _); by repeat constructor.
    + intros [= <-]. eexists. split; [by right|]. by repeat constructor.
  - intros [= <-]. exists []. split; [by left|done].
Qed.

(** X22: in a run of the main waterfall LUIS is queried at most once, and
    only about a turn in which the user answered the text prompt of the
    first step: not before the user was asked, and not again when the
    order form returns.  (Of a step that throws, a run records nothing.) *)
Theorem luis_is_queried_once (ctx : TurnContext) (opts : obj) :
  let sent := (beginWaterfall respond (waterfall this) ctx opts).1 in
  length (filter (λ e, isLuisQuery e = true) sent) ≤ 1
  ∧ (OrderRecognizer.isConfigured (luisRecognizer this) = true →
     ∀ turn, LuisQuery turn ∈ sent →
       ∃ prompt reply,
         respond (Prompt "TextPrompt" prompt) = Some (turn, reply)).
Proof.
  assert (∀ turn result, ∃ rest,
    ((runSteps respond [actStep this; finalStep this] 1 turn opts result).1
       = rest
     ∨ (runSteps respond [actStep this; finalStep this] 1 turn opts result).1
       = LuisQuery turn :: rest)
    ∧ Forall (λ e, isLuisQuery e = false) rest) as Hact.
  { intros turn result.
    destruct (actStep this (mkStepContext turn opts result))
      as [out|e] eqn:Hstep.
    - destruct (actStep_events _ _ Hstep) as (rest & Hevents & Hrest).
      cbn [context] in Hevents. destruct out as [stored sent request].
      cbn [events] in Hevents.
      assert (∃ more,
        (runSteps respond [actStep this; finalStep this] 1 turn opts
           result).1 = sent ++ more
        ∧ Forall (λ e, isLuisQuery e = false) more) as (more & -> & Hmore).
      { destruct request as [id p|v|id o|v|id o].
        - destruct (respond (Prompt id p)) as [[ctx' v]|] eqn:Hanswer.
          + run_step ltac:(exact Hstep).
            destruct (finalStep_sends_no_query this
                        (mkStepContext ctx' stored v))
              as (final & Hfinal & Hquiet).
            run_step ltac:(exact Hfinal). cbn. rewrite <-app_assoc.
            eexists. split; [done|]. by repeat constructor.
          + run_step ltac:(exact Hstep). cbn. eexists. split; [done|].
            by repeat constructor.
        - run_step ltac:(exact Hstep).
          destruct (finalStep_sends_no_query this (mkStepContext turn stored v))
            as (final & Hfinal & Hquiet).
          run_step ltac:(exact Hfinal). cbn. by eexists.
        - destruct (respond (BeginDialog id o)) as [[ctx' v]|] eqn:Hanswer.
          + run_step ltac:(exact Hstep).
            destruct (finalStep_sends_no_query this
                        (mkStepContext ctx' stored v))
              as (final & Hfinal & Hquiet).
            run_step ltac:(exact Hfinal). cbn. rewrite <-app_assoc.
            eexists. split; [done|]. by repeat constructor.
          + run_step ltac:(exact Hstep). cbn. eexists. split; [done|].
            by repeat constructor.
        - run_step ltac:(exact Hstep). cbn. exists [].
          by rewrite app_nil_r.
        - run_step ltac:(exact Hstep). cbn. exists [].
          by rewrite app_nil_r. }
      destruct Hevents as [->| ->].
      + exists (rest ++ more). split; [by left|]. by apply Forall_app.
      + exists (rest ++ more). split; [by right|]. by apply Forall_app.
    - rewrite (runSteps_throw _ _ _ _ _ _ _ _ Hstep). exists [].
      split; [by left|done]. }
  assert (∀ rest, Forall (λ e, isLuisQuery e = false) rest →
    filter (λ e, isLuisQuery e = true) rest = []
    ∧ ∀ turn, LuisQuery turn ∉ rest) as Hquiet.
  { intros rest Hrest. split.
    - induction Hrest as [|e rest He _ IH]; [done|].
      rewrite filter_cons_False by congruence. done.
    - intros turn Hin. rewrite Forall_forall in Hrest.
      by specialize (Hrest _ Hin). }
  cbn zeta.
  destruct (OrderRecognizer.isConfigured (luisRecognizer this)) eqn:Hon.
  - assert (∃ prompt,
      introStep this (mkStepContext ctx opts VUndefined)
        = Ok (mkStepOutput opts [] (Prompt "TextPrompt" prompt)))
      as (prompt & Hintro).
    { unfold introStep. rewrite Hon. by eexists. }
    unfold beginWaterfall, waterfall.
    destruct (respond (Prompt "TextPrompt" prompt)) as [[ctx' v]|] eqn:Hanswer.
    + run_step ltac:(exact Hintro).
      destruct (Hact ctx' v) as (rest & [Hsent|Hsent] & Hrest);
        destruct (Hquiet _ Hrest) as [Hnone Hnot];
        cbn [prepend fst app]; rewrite Hsent.
      * split.
        -- rewrite !count_queries_cons, Hnone. cbn. lia.
        -- intros _ turn [?|?]%elem_of_cons; [done|]. by destruct (Hnot turn).
      * split.
        -- rewrite !count_queries_cons, Hnone. cbn. lia.
        -- intros _ turn [?|[?|?]%elem_of_cons]%elem_of_cons; [done| |].
           ++ simplify_eq. by eexists _, _.
           ++ by destruct (Hnot turn).
    + run_step ltac:(exact Hintro). cbn [fst app].
      split; [rewrite !count_queries_cons; cbn; lia|].
      intros _ turn [?|?%elem_of_nil]%elem_of_cons; done.
  - split; [|done]. rewrite begin_unconfigured by done.
    destruct (Hact ctx VUndefined) as (rest & [Hsent|Hsent] & Hrest);
      destruct (Hquiet _ Hrest) as [Hnone Hnot];
      cbn [prepend fst app]; rewrite Hsent.
    + rewrite !count_queries_cons, Hnone. cbn. lia.
    + rewrite !count_queries_cons, Hnone. cbn. lia.
Qed.
End LuisQueries.

Lemma order_form_frame_witness :
  storedOrder (H := SampleTimex.timexLibrary) MoreSamples.datedOrder "rice"
    (VStr "2020-03-22") !! "DeliveryDate"
  = MoreSamples.datedOrder !! "DeliveryDate".
Proof.
  pose proof (order_form_frame (H := SampleTimex.timexLibrary)
                (answers (Samples.turn "yes") "rice" (VStr "2020-03-22") None)
                (Samples.turn "hello") MoreSamples.datedOrder) as Hframe.
  rewrite run_order_form in Hframe.
  apply Hframe; discriminate.
Defined.

Lemma luis_is_queried_once_witness :
  ∃ prompt reply,
    MoreSamples.userSays SampleLuis.riceOrder (Prompt "TextPrompt" prompt)
      = Some (Samples.turn SampleLuis.riceOrder, reply).
Proof.
  apply (proj2 (luis_is_queried_once (H0 := SampleTimex.timexLibrary)
                  Samples.onlineDialog
                  (MoreSamples.userSays SampleLuis.riceOrder)
                  (Samples.turn "hello") ∅));
    [reflexivity|].
  right. left.
Defined.
